(** * ipfw-blessed-tui: a shallow embedding of [IpfwTUI] and its properties

    The program is one Python class, [IpfwTUI], in [ipfw-blessed-tui.py].
    It lists the firewall rules by running [ipfw list], lets the operator
    move a selection over them and issues [ipfw] commands.

    The embedding follows the source:
    - a Python [str] is a list of Unicode code points, [bytes] a list of
      [byte], a Python [int] an unbounded [Z];
    - the fields of [self] are a record, mutated through a small state and
      exception monad;
    - what the external [ipfw] process does, which key the terminal
      delivers and how tall the terminal is are inputs of each loop
      iteration; the argument vectors handed to [subprocess] are logged. *)

From Stdlib.Strings Require Import String Ascii Byte.
From Stdlib Require Import List ZArith NArith Lia Bool.
Import ListNotations.
Open Scope Z_scope.

(** ** Python values *)

Module Py.

(** A [str]: the sequence of its code points. *)
Definition str := list N.

(** [bytes]. *)
Definition bytes := list byte.

(** A literal of the source, written as an ASCII string. *)
Definition lit (s : string) : str :=
  List.map N_of_ascii (list_ascii_of_string s).

(** [b"..."]: the bytes of an ASCII literal. *)
Definition blit (s : string) : bytes := list_byte_of_string s.

Definition str_eqb (a b : str) : bool :=
  if list_eq_dec N.eq_dec a b then true else false.

(** Truth value of a sequence: non-empty. *)
Definition truthy {A : Type} (l : list A) : bool :=
  match l with [] => false | _ :: _ => true end.

(** [len(l)]. *)
Definition len {A : Type} (l : list A) : Z := Z.of_nat (List.length l).

(** [str.isspace] on one code point ([Py_UNICODE_ISSPACE]): the
    characters of bidirectional type WS, B or S, or of category Zs. *)
Definition isspace (c : N) : bool :=
  (((9 <=? c) && (c <=? 13)) || ((28 <=? c) && (c <=? 32))
   || (c =? 133) || (c =? 160) || (c =? 5760)
   || ((8192 <=? c) && (c <=? 8202))
   || (c =? 8232) || (c =? 8233) || (c =? 8239) || (c =? 8287)
   || (c =? 12288))%N.

Fixpoint lstrip (s : str) : str :=
  match s with
  | [] => []
  | c :: s' => if isspace c then lstrip s' else s
  end.

Definition rstrip (s : str) : str := rev (lstrip (rev s)).

(** [s.strip()]. *)
Definition strip (s : str) : str := rstrip (lstrip s).

Definition PY_SSIZE_T_MAX : Z := 9223372036854775807.

(** The scan of [s.split(None, maxsplit)] (CPython's [split_whitespace]):
    [tok] is the token being read, [None] between tokens; [maxcount] is
    the number of splits still allowed.  Once it is used up, the rest of
    the string, from its first character that is not whitespace to its
    very end, is the last piece. *)
Fixpoint split_scan (maxcount : Z) (tok : option str) (s : str) : list str :=
  match s with
  | [] => match tok with Some t => [t] | None => [] end
  | c :: s' =>
      match tok with
      | None =>
          if isspace c then split_scan maxcount None s'
          else if 0 <? maxcount then split_scan (maxcount - 1) (Some [c]) s'
          else [s]
      | Some t =>
          if isspace c then t :: split_scan maxcount None s'
          else split_scan maxcount (Some (t ++ [c])) s'
      end
  end.

(** [s.split(maxsplit=n)], and [s.split()] for [n = -1]. *)
Definition split (maxsplit : Z) (s : str) : list str :=
  split_scan (if maxsplit <? 0 then PY_SSIZE_T_MAX else maxsplit) None s.

(** [s.split(sep)] for a separator of one character: never empty, and
    one piece more than there are separators. *)
Fixpoint split_on (sep : N) (s : str) : list str :=
  match s with
  | [] => [[]]
  | c :: s' =>
      if (c =? sep)%N then [] :: split_on sep s'
      else match split_on sep s' with
           | piece :: pieces => (c :: piece) :: pieces
           | [] => [[c]]
           end
  end.

(** [s.lower()] on the ASCII letters.  The program only compares the
    result with the one-letter strings 'q', 'a', 'd' and 'e', and no code
    point outside ASCII lower-cases to one of these, so other code points
    are left as they are. *)
Definition lower_cp (c : N) : N :=
  if ((65 <=? c) && (c <=? 90))%N then (c + 32)%N else c.

Definition lower (s : str) : str := List.map lower_cp s.

(** [s[:-1]]. *)
Definition drop_last (s : str) : str := removelast s.

(** Continuation byte of UTF-8. *)
Definition cont (b : N) : bool := ((128 <=? b) && (b <=? 191))%N.

(** [b.decode()]: strict UTF-8.  [None] stands for [UnicodeDecodeError]
    (a stray or missing continuation byte, an overlong form, a surrogate,
    a code point above U+10FFFF). *)
Fixpoint decode (bs : bytes) : option str :=
  match bs with
  | [] => Some []
  | b0 :: r0 =>
      let n0 := Byte.to_N b0 in
      if (n0 <? 128)%N then option_map (cons n0) (decode r0)
      else
        match r0 with
        | [] => None
        | b1 :: r1 =>
            let n1 := Byte.to_N b1 in
            if ((194 <=? n0) && (n0 <=? 223))%N then
              if cont n1
              then option_map (cons ((n0 - 192) * 64 + (n1 - 128))%N) (decode r1)
              else None
            else
              match r1 with
              | [] => None
              | b2 :: r2 =>
                  let n2 := Byte.to_N b2 in
                  if ((224 <=? n0) && (n0 <=? 239))%N then
                    if ((if n0 =? 224 then 160 else 128) <=? n1)%N
                       && (n1 <=? (if n0 =? 237 then 159 else 191))%N
                       && cont n2
                    then option_map
                           (cons ((n0 - 224) * 4096 + (n1 - 128) * 64 + (n2 - 128))%N)
                           (decode r2)
                    else None
                  else
                    match r2 with
                    | [] => None
                    | b3 :: r3 =>
                        let n3 := Byte.to_N b3 in
                        if ((240 <=? n0) && (n0 <=? 244))%N
                           && ((if n0 =? 240 then 144 else 128) <=? n1)%N
                           && (n1 <=? (if n0 =? 244 then 143 else 191))%N
                           && cont n2 && cont n3
                        then option_map
                               (cons ((n0 - 240) * 262144 + (n1 - 128) * 4096
                                      + (n2 - 128) * 64 + (n3 - 128))%N)
                               (decode r3)
                        else None
                    end
              end
        end
  end.

End Py.

(** ** The external process and the exceptions of the program *)

(** Why [subprocess] could not start the process. *)
Inductive launch_failure : Type :=
| FileNotFoundError   (* no [ipfw] on the PATH *)
| PermissionError
| OtherOSError.

(** The exceptions that the modelled code can raise. *)
Inductive exn : Type :=
| CalledProcessError (returncode : Z)
| LaunchError (f : launch_failure)
| UnicodeDecodeError
| IndexError.

(** What one invocation of the external tool does: it runs and exits with
    a return code, having written [stdout], or it is never started. *)
Inductive proc_outcome : Type :=
| Exited (returncode : Z) (stdout : Py.bytes)
| LaunchFailed (f : launch_failure).

Inductive result (A : Type) : Type :=
| Ok (a : A)
| Raise (e : exn).
Arguments Ok {A} a.
Arguments Raise {A} e.

(** ** The terminal library *)

Module Blessed.

(** A [Keystroke] is a [str] with a [code]: [None] for an ordinary
    character, the key code for a key that is sent as a sequence. *)
Record Keystroke : Type := mkKeystroke { ucs : Py.str; code : option Z }.

(** The key codes are those of curses, which blessed re-exports. *)
Definition KEY_DOWN : Z := 258.
Definition KEY_UP : Z := 259.
Definition KEY_LEFT : Z := 260.
Definition KEY_RIGHT : Z := 261.
Definition KEY_BACKSPACE : Z := 263.
Definition KEY_ENTER : Z := 343.
Definition KEY_ESCAPE : Z := 361.

(** [key.code == k]. *)
Definition code_is (key : Keystroke) (k : Z) : bool :=
  match code key with Some c => c =? k | None => false end.

(** [not key.code]. *)
Definition no_code (key : Keystroke) : bool :=
  match code key with Some c => c =? 0 | None => true end.

(** [key.lower() == c] for a literal [c]. *)
Definition lower_is (key : Keystroke) (c : string) : bool :=
  Py.str_eqb (Py.lower (ucs key)) (Py.lit c).

End Blessed.
Import Blessed.

(** ** The state of [IpfwTUI] *)

(** One rule: the dict [{'number': ..., 'rule': ...}]. *)
Record Rule : Type := mkRule { number : Py.str; rule : Py.str }.

(** The fields that [__init__] creates, [self.term] apart. *)
Record IpfwTUI : Type := mkIpfwTUI {
  current_rules : list Rule;
  selected_index : Z;
  command_mode : bool;
  command_string : Py.str;
  status_message : Py.str;
  scroll_offset : Z;
  command_history : list Py.str;
  history_index : Z
}.

(** [__init__]. *)
Definition init : IpfwTUI :=
  {| current_rules := []; selected_index := 0; command_mode := false;
     command_string := []; status_message := []; scroll_offset := 0;
     command_history := []; history_index := 0 |}.

Definition set_current_rules (v : list Rule) (t : IpfwTUI) : IpfwTUI :=
  mkIpfwTUI v (selected_index t) (command_mode t) (command_string t)
            (status_message t) (scroll_offset t) (command_history t) (history_index t).
Definition set_selected_index (v : Z) (t : IpfwTUI) : IpfwTUI :=
  mkIpfwTUI (current_rules t) v (command_mode t) (command_string t)
            (status_message t) (scroll_offset t) (command_history t) (history_index t).
Definition set_command_mode (v : bool) (t : IpfwTUI) : IpfwTUI :=
  mkIpfwTUI (current_rules t) (selected_index t) v (command_string t)
            (status_message t) (scroll_offset t) (command_history t) (history_index t).
Definition set_command_string (v : Py.str) (t : IpfwTUI) : IpfwTUI :=
  mkIpfwTUI (current_rules t) (selected_index t) (command_mode t) v
            (status_message t) (scroll_offset t) (command_history t) (history_index t).
Definition set_status_message (v : Py.str) (t : IpfwTUI) : IpfwTUI :=
  mkIpfwTUI (current_rules t) (selected_index t) (command_mode t) (command_string t)
            v (scroll_offset t) (command_history t) (history_index t).
Definition set_scroll_offset (v : Z) (t : IpfwTUI) : IpfwTUI :=
  mkIpfwTUI (current_rules t) (selected_index t) (command_mode t) (command_string t)
            (status_message t) v (command_history t) (history_index t).
Definition set_command_history (v : list Py.str) (t : IpfwTUI) : IpfwTUI :=
  mkIpfwTUI (current_rules t) (selected_index t) (command_mode t) (command_string t)
            (status_message t) (scroll_offset t) v (history_index t).
Definition set_history_index (v : Z) (t : IpfwTUI) : IpfwTUI :=
  mkIpfwTUI (current_rules t) (selected_index t) (command_mode t) (command_string t)
            (status_message t) (scroll_offset t) (command_history t) v.

(** The object together with the argument vectors that the program has
    handed to [subprocess] so far, oldest first. *)
Record Sys : Type := mkSys { tui : IpfwTUI; calls : list (list Py.str) }.

(** ** The monad: state, and exceptions that keep the state *)

Definition M (A : Type) : Type := Sys -> result A * Sys.

Definition ret {A : Type} (a : A) : M A := fun s => (Ok a, s).

Definition bind {A B : Type} (m : M A) (k : A -> M B) : M B :=
  fun s => match m s with
           | (Ok a, s') => k a s'
           | (Raise e, s') => (Raise e, s')
           end.

Definition raise {A : Type} (e : exn) : M A := fun s => (Raise e, s).

(** [self] as it is now. *)
Definition get : M IpfwTUI := fun s => (Ok (tui s), s).

(** An assignment to fields of [self]. *)
Definition update (f : IpfwTUI -> IpfwTUI) : M unit :=
  fun s => (Ok tt, mkSys (f (tui s)) (calls s)).

(** [try: body  except ...: handler]: [handler e] is [None] for an
    exception that no [except] clause names. *)
Definition try_except {A : Type} (body : M A) (handler : exn -> option (M A)) : M A :=
  fun s => match body s with
           | (Ok a, s') => (Ok a, s')
           | (Raise e, s') =>
               match handler e with
               | Some h => h s'
               | None => (Raise e, s')
               end
           end.

Declare Scope py_scope.
Delimit Scope py_scope with py.
Notation "x <- m ;; k" := (bind m (fun x => k))
  (at level 100, m at next level, right associativity) : py_scope.
Notation "m ;; k" := (bind m (fun _ => k))
  (at level 100, right associativity) : py_scope.
Open Scope py_scope.

(** [l[i]], with Python's negative indices and [IndexError]. *)
Definition getitem {A : Type} (l : list A) (i : Z) : M A :=
  let j := if i <? 0 then i + Py.len l else i in
  if j <? 0 then raise IndexError
  else match nth_error l (Z.to_nat j) with
       | Some x => ret x
       | None => raise IndexError
       end.

Module Subprocess.

(** The process is asked for: its argument vector is on record. *)
Definition spawn (argv : list Py.str) : M unit :=
  fun s => (Ok tt, mkSys (tui s) (calls s ++ [argv])).

(** [subprocess.check_output(argv)]. *)
Definition check_output (argv : list Py.str) (o : proc_outcome) : M Py.bytes :=
  spawn argv ;;
  match o with
  | Exited rc out => if rc =? 0 then ret out else raise (CalledProcessError rc)
  | LaunchFailed f => raise (LaunchError f)
  end.

(** [subprocess.run(argv, check=True)], its result dropped. *)
Definition run (argv : list Py.str) (o : proc_outcome) : M unit :=
  spawn argv ;;
  match o with
  | Exited rc _ => if rc =? 0 then ret tt else raise (CalledProcessError rc)
  | LaunchFailed f => raise (LaunchError f)
  end.

End Subprocess.

(** [.decode()] in the monad. *)
Definition decode (raw : Py.bytes) : M Py.str :=
  match Py.decode raw with
  | Some text => ret text
  | None => raise UnicodeDecodeError
  end.

(** The clause [except subprocess.CalledProcessError: return v]. *)
Definition except_CalledProcessError {A : Type} (v : A) (e : exn) : option (M A) :=
  match e with
  | CalledProcessError _ => Some (ret v)
  | _ => None
  end.

(** ** The methods of [IpfwTUI] *)

(** The body of the [for line in ...] loop of [get_ipfw_rules]: [rules]
    before the line, and after it. *)
Definition add_line (rules : list Rule) (line : Py.str) : list Rule :=
  if Py.truthy (Py.strip line) then
    match Py.split 1 line with
    | part0 :: part1 :: _ =>            (* len(parts) >= 2 *)
        rules ++ [{| number := part0; rule := part1 |}]
    | _ => rules
    end
  else rules.

Definition get_ipfw_rules (o : proc_outcome) : M (list Rule) :=
  try_except
    (raw <- Subprocess.check_output [Py.lit "ipfw"; Py.lit "list"] o ;;
     output <- decode raw ;;
     ret (fold_left add_line (Py.split_on 10%N output) []))
    (except_CalledProcessError []).

Definition execute_ipfw_command (command : Py.str) (o : proc_outcome) : M bool :=
  try_except
    (Subprocess.run ([Py.lit "ipfw"] ++ Py.split (-1) command) o ;;
     (if Py.truthy (Py.strip command)
      then update (fun t => set_command_history (command_history t ++ [command]) t)
      else ret tt) ;;
     ret true)
    (except_CalledProcessError false).

(** [handle_command_input]: [o] is what the external tool does if the key
    leads to its invocation. *)
Definition handle_command_input (key : Keystroke) (o : proc_outcome) : M bool :=
  self <- get ;;
  if code_is key KEY_ENTER then
    ok <- execute_ipfw_command (command_string self) o ;;
    update (set_status_message
              (if ok then Py.lit "Command executed successfully"
               else Py.lit "Error executing command")) ;;
    update (set_command_mode false) ;;
    update (set_command_string []) ;;
    ret true
  else if code_is key KEY_ESCAPE then
    update (set_command_mode false) ;;
    update (set_command_string []) ;;
    ret true
  else if code_is key KEY_BACKSPACE then
    update (set_command_string (Py.drop_last (command_string self))) ;;
    ret false
  else if code_is key KEY_UP && Py.truthy (command_history self) then
    (if 0 <? history_index self then
       update (set_history_index (history_index self - 1)) ;;
       self <- get ;;
       recalled <- getitem (command_history self) (history_index self) ;;
       update (set_command_string recalled)
     else ret tt) ;;
    ret false
  else if code_is key KEY_DOWN && Py.truthy (command_history self) then
    (if history_index self <? Py.len (command_history self) - 1 then
       update (set_history_index (history_index self + 1)) ;;
       self <- get ;;
       recalled <- getitem (command_history self) (history_index self) ;;
       update (set_command_string recalled)
     else ret tt) ;;
    ret false
  else if no_code key then
    update (set_command_string (command_string self ++ ucs key)) ;;
    ret false
  else ret false.

(** What one turn of the loop of [run] receives from outside: what
    [ipfw list] does, the key that [inkey] returns, [term.height] at that
    moment, and what [ipfw] does if the key makes the program run it. *)
Record Input : Type := mkInput {
  listing : proc_outcome;
  key : Keystroke;
  height : Z;
  command : proc_outcome
}.

(** How a turn of the loop ends: it goes round again, or [break]. *)
Inductive control : Type := Next | Break.

(** The last statement of the loop body. *)
Definition clear_status : M unit :=
  self <- get ;;
  if negb (command_mode self) then update (set_status_message []) else ret tt.

(** The keys of the [else] branch of the loop body, after 'q'. *)
Definition browse (key : Keystroke) (height : Z) (o : proc_outcome) : M unit :=
  self <- get ;;
  if code_is key KEY_UP then
    if 0 <? selected_index self then
      update (set_selected_index (selected_index self - 1)) ;;
      self <- get ;;
      if selected_index self <? scroll_offset self
      then update (set_scroll_offset (selected_index self))
      else ret tt
    else ret tt
  else if code_is key KEY_DOWN then
    if selected_index self <? Py.len (current_rules self) - 1 then
      update (set_selected_index (selected_index self + 1)) ;;
      self <- get ;;
      if scroll_offset self + (height - 6) <=? selected_index self
      then update (set_scroll_offset (scroll_offset self + 1))
      else ret tt
    else ret tt
  else if lower_is key "a" then
    update (set_command_mode true) ;;
    update (set_command_string []) ;;
    update (set_history_index (Py.len (command_history self)))
  else if lower_is key "d" then
    if Py.truthy (current_rules self) then
      selected <- getitem (current_rules self) (selected_index self) ;;
      let rule_num := number selected in
      ok <- execute_ipfw_command (Py.lit "delete " ++ rule_num) o ;;
      if ok
      then update (set_status_message (Py.lit "Deleted rule " ++ rule_num))
      else update (set_status_message (Py.lit "Error deleting rule"))
    else ret tt
  else if lower_is key "e" && Py.truthy (current_rules self) then
    selected <- getitem (current_rules self) (selected_index self) ;;
    update (set_command_mode true) ;;
    update (set_command_string
              (Py.lit "delete " ++ number selected ++ Py.lit " && add " ++ rule selected)) ;;
    self <- get ;;
    update (set_history_index (Py.len (command_history self)))
  else ret tt.

(** One turn of [while True] in [run].  [draw_screen] only prints: it
    reads [self] and leaves it as it is, so it has no counterpart here;
    what it shows of the status is [status_message] as the previous turn
    left it, since [get_ipfw_rules] does not assign that field. *)
Definition iteration (i : Input) : M control :=
  rules <- get_ipfw_rules (listing i) ;;
  update (set_current_rules rules) ;;
  self <- get ;;
  if command_mode self then
    leave <- handle_command_input (key i) (command i) ;;
    if leave then ret Next                      (* continue *)
    else clear_status ;; ret Next
  else
    if lower_is (key i) "q" then ret Break
    else
      browse (key i) (height i) (command i) ;;
      clear_status ;;
      ret Next.

(** [run] over the inputs of its first turns; [Next] when the loop is
    still going after them. *)
Fixpoint run (inputs : list Input) : M control :=
  match inputs with
  | [] => ret Next
  | i :: rest =>
      c <- iteration i ;;
      match c with
      | Next => run rest
      | Break => ret Break
      end
  end.

(** The program at start-up. *)
Definition start : Sys := mkSys init [].

(** ** Notions used to state the properties *)

(** The whitespace-delimited tokens of a line, [line.split()]. *)
Definition tokens (line : Py.str) : list Py.str := Py.split (-1) line.

(** The characters of [s] up to its first whitespace character. *)
Fixpoint first_token (s : Py.str) : Py.str :=
  match s with
  | [] => []
  | c :: s' => if Py.isspace c then [] else c :: first_token s'
  end.

(** [s] from its first whitespace character on. *)
Fixpoint skip_token (s : Py.str) : Py.str :=
  match s with
  | [] => []
  | c :: s' => if Py.isspace c then s else skip_token s'
  end.

(** What is left of a line after its first token and the run of
    whitespace that ends it. *)
Definition remainder (line : Py.str) : Py.str :=
  Py.lstrip (skip_token (Py.lstrip line)).

(** The lines of the output, [output.split('\n')]. *)
Definition lines (output : Py.str) : list Py.str := Py.split_on 10%N output.

(** The rules that one line contributes. *)
Definition rules_of_line (line : Py.str) : list Rule := add_line [] line.

Definition all_space (s : Py.str) : bool := forallb Py.isspace s.

Definition no_space (s : Py.str) : bool := forallb (fun c => negb (Py.isspace c)) s.

(** The external tool ran and exited with code zero. *)
Definition succeeded (o : proc_outcome) : bool :=
  match o with
  | Exited rc _ => rc =? 0
  | LaunchFailed _ => false
  end.

(** The argument vector of the listing. *)
Definition ipfw_list : list Py.str := [Py.lit "ipfw"; Py.lit "list"].

(** [selected_index] and [scroll_offset] fit a list of [n] rules. *)
Definition selection_ok (n : Z) (t : IpfwTUI) : Prop :=
  0 <= scroll_offset t /\ scroll_offset t <= selected_index t /\ selected_index t < n.

(** An arrow key: up, down, left or right, which the terminal sends as
    an escape sequence. *)
Definition is_arrow (k : Keystroke) : bool :=
  match ucs k with
  | 27%N :: _ =>
      code_is k KEY_UP || code_is k KEY_DOWN
      || code_is k KEY_LEFT || code_is k KEY_RIGHT
  | _ => false
  end.

(** The up and down keys of CommandEntry. *)
Definition is_up_down (k : Keystroke) : bool := code_is k KEY_UP || code_is k KEY_DOWN.

(** Where one up or down key moves the history cursor [idx] in a history
    of [n] entries: one step, stopping at the ends. *)
Definition cursor_move (n : Z) (idx : Z) (k : Keystroke) : Z :=
  if code_is k KEY_UP then Z.max 0 (idx - 1)
  else if idx <? n - 1 then idx + 1 else idx.

(** The listing succeeds: [get_ipfw_rules] returns [rules]. *)
Definition lists (o : proc_outcome) (rules : list Rule) : Prop :=
  forall s, fst (get_ipfw_rules o s) = Ok rules.

(** The object after a command has run: the history has the command when
    it succeeded and is not blank. *)
Definition after_command (cmd : Py.str) (o : proc_outcome) (t : IpfwTUI) : IpfwTUI :=
  if succeeded o && Py.truthy (Py.strip cmd)
  then set_command_history (command_history t ++ [cmd]) t
  else t.

(** ** Sample inputs *)

Definition key_up : Keystroke := mkKeystroke (27%N :: Py.lit "[A") (Some KEY_UP).
Definition key_down : Keystroke := mkKeystroke (27%N :: Py.lit "[B") (Some KEY_DOWN).
Definition key_left : Keystroke := mkKeystroke (27%N :: Py.lit "[D") (Some KEY_LEFT).
Definition key_enter : Keystroke := mkKeystroke [10%N] (Some KEY_ENTER).
Definition key_escape : Keystroke := mkKeystroke [27%N] (Some KEY_ESCAPE).
Definition key_char (c : string) : Keystroke := mkKeystroke (Py.lit c) None.

(** The listing of the end-to-end example. *)
Definition sample_output : Py.bytes := Py.blit "65000 allow ip from any to any".
Definition sample_rule : Rule :=
  mkRule (Py.lit "65000") (Py.lit "allow ip from any to any").

(** A listing of two rules, with an empty line and a line of one token. *)
Definition two_rules_output : Py.bytes :=
  list_byte_of_string
    (String.append "00100 allow ip from any to any via lo0"
       (String "010" (String.append "junk"
          (String "010" (String "010" "65535 deny ip from any to any"))))).

Definition ok : proc_outcome := Exited 0 [].
Definition failed : proc_outcome := Exited 1 [].
Definition absent : proc_outcome := LaunchFailed FileNotFoundError.

(** CommandEntry with a status on display: 'a', Enter on the empty buffer,
    for which [ipfw] fails, and 'a' again. *)
Definition stale_status : Sys :=
  snd (run [mkInput (Exited 0 sample_output) (key_char "a") 24 ok;
            mkInput (Exited 0 sample_output) key_enter 24 failed;
            mkInput (Exited 0 sample_output) (key_char "a") 24 ok] start).

(** Browsing with an empty rule list and a status on display: every
    [ipfw] fails, and the operator has pressed 'a' and Enter. *)
Definition status_on_display : Sys :=
  snd (run [mkInput failed (key_char "a") 24 failed;
            mkInput failed key_enter 24 failed] start).

Definition two_rules : list Rule :=
  [mkRule (Py.lit "00100") (Py.lit "allow ip from any to any via lo0");
   mkRule (Py.lit "65535") (Py.lit "deny ip from any to any")].

(** Down, down, left, up over the two rules, in a terminal of seven
    lines. *)
Definition arrows : list Input :=
  [mkInput (Exited 0 two_rules_output) key_down 7 ok;
   mkInput (Exited 0 two_rules_output) key_down 7 ok;
   mkInput (Exited 0 two_rules_output) key_left 7 ok;
   mkInput (Exited 0 two_rules_output) key_up 7 ok].

(** The object in CommandEntry, entered by 'a', with two commands in the
    history. *)
Definition entered : Sys :=
  mkSys (mkIpfwTUI two_rules 0 true [] [] 0
           [Py.lit "add 200 allow tcp from any to any"; Py.lit "delete 200"] 2)
        [].

(** Up, up, up, down, down in CommandEntry. *)
Definition recalls : list Input :=
  [mkInput (Exited 0 two_rules_output) key_up 24 ok;
   mkInput (Exited 0 two_rules_output) key_up 24 ok;
   mkInput (Exited 0 two_rules_output) key_up 24 ok;
   mkInput (Exited 0 two_rules_output) key_down 24 ok;
   mkInput (Exited 0 two_rules_output) key_down 24 ok].

(** ** What holds of every session *)

(** The scroll offset is not negative and not past the selection. *)
Definition offsets_ok (t : IpfwTUI) : Prop :=
  0 <= scroll_offset t /\ scroll_offset t <= selected_index t.

(** The history cursor is on an entry of the history, or just after the
    last one. *)
Definition cursor_ok (t : IpfwTUI) : Prop :=
  0 <= history_index t /\ history_index t <= Py.len (command_history t).

(** The status messages that a turn of the loop can leave behind. *)
Definition status_left (m : Py.str) : Prop :=
  m = [] \/ m = Py.lit "Command executed successfully"
  \/ m = Py.lit "Error executing command".

(** An argument vector whose program is [ipfw]. *)
Definition runs_ipfw (argv : list Py.str) : Prop := hd [] argv = Py.lit "ipfw".

Definition session_ok (s : Sys) : Prop :=
  offsets_ok (tui s) /\ cursor_ok (tui s)
  /\ Forall (fun c => all_space c = false) (command_history (tui s))
  /\ status_left (status_message (tui s))
  /\ Forall runs_ipfw (calls s).

(** A rule as the listing is read: a number that is one token, a text
    that starts with a character that is not whitespace and stays on its
    line. *)
Definition well_formed (r : Rule) : Prop :=
  number r <> [] /\ no_space (number r) = true
  /\ all_space (firstn 1 (rule r)) = false /\ ~ In 10%N (rule r).

(** A computation that never raises [CalledProcessError]. *)
Definition contained {A : Type} (m : M A) : Prop :=
  forall s rc, fst (m s) <> Raise (CalledProcessError rc).

(** ** More sample inputs *)

(** The first of the two rules alone. *)
Definition first_rule_output : Py.bytes := Py.blit "00100 allow ip from any to any via lo0".

(** Two rules listed, down to the second, 'd' deletes it. *)
Definition second_rule_deleted : Sys :=
  snd (run [mkInput (Exited 0 two_rules_output) key_down 24 ok;
            mkInput (Exited 0 two_rules_output) (key_char "d") 24 ok] start).

(** The keys that type [text], one character each. *)
Definition type_keys (listing : proc_outcome) (text : string) : list Input :=
  List.map (fun c => mkInput listing (mkKeystroke [c] None) 24 ok) (Py.lit text).

Definition key_backspace : Keystroke := mkKeystroke [127%N] (Some KEY_BACKSPACE).

Definition typed_command : string := "add 200 deny ip from any to any".

(** 'a', the command typed, Enter. *)
Definition add_session : list Input :=
  mkInput (Exited 0 two_rules_output) (key_char "a") 24 ok
  :: type_keys (Exited 0 two_rules_output) typed_command
  ++ [mkInput (Exited 0 two_rules_output) key_enter 24 ok].

(** The selected rule is among the [height - 6] rules that the screen has
    room for, counted from [scroll_offset]. *)
Definition selection_visible (height : Z) (t : IpfwTUI) : Prop :=
  scroll_offset t <= selected_index t /\ selected_index t < scroll_offset t + (height - 6).

(** ** The rule rows of [draw_screen] *)

(** An index of a slice, brought into [0, n] as Python does. *)
Definition slice_index (n i : Z) : Z :=
  if i <? 0 then Z.max 0 (i + n) else Z.min i n.

(** [l[start:stop]]. *)
Definition slice {A : Type} (l : list A) (start stop : Z) : list A :=
  let lo := slice_index (Py.len l) start in
  let hi := slice_index (Py.len l) stop in
  firstn (Z.to_nat (hi - lo)) (skipn (Z.to_nat lo) l).

(** One [print] of the loop over the rules: the text goes to column 1 of
    line [row_y], in reverse video when [row_reverse] is set. *)
Record Row : Type := mkRow { row_y : Z; row_text : Py.str; row_reverse : bool }.

(** The text of a rule on the screen, cut to the width. *)
Definition display_text (r : Rule) (width : Z) : Py.str :=
  let text := number r ++ Py.lit ": " ++ rule r in
  if width - 2 <? Py.len text
  then slice text 0 (width - 5) ++ Py.lit "..."
  else text.

(** The loop [for idx, rule in enumerate(visible_rules)], from [idx] on. *)
Fixpoint draw_rows (self : IpfwTUI) (width height idx : Z) (visible : list Rule)
  : list Row :=
  match visible with
  | [] => []
  | r :: rest =>
      let screen_idx := idx + 3 in
      if height - 3 <=? screen_idx then []          (* break *)
      else
        mkRow screen_idx (display_text r width)
              (idx + scroll_offset self =? selected_index self)
        :: draw_rows self width height (idx + 1) rest
  end.

(** The part of [draw_screen] that draws the rules. *)
Definition draw_rules (self : IpfwTUI) (width height : Z) : list Row :=
  let available_height := height - 6 in
  let visible_rules :=
    slice (current_rules self) (scroll_offset self)
          (scroll_offset self + available_height) in
  draw_rows self width height 0 visible_rules.

(** The two rules on a screen of 24 lines and 20 columns, the second one
    selected. *)
Definition second_selected : IpfwTUI :=
  set_selected_index 1 (set_current_rules two_rules init).

(** A byte of the ASCII range. *)
Definition is_ascii (b : byte) : Prop := (Byte.to_N b < 128)%N.

(** A listing that is not UTF-8: the lone byte 0xff. *)
Definition not_utf8 : Py.bytes := [xff].

(** ** Strings *)

Lemma lstrip_nil_iff : forall s, Py.lstrip s = [] <-> all_space s = true.
Proof.
  induction s as [|c s IH]; simpl.
  - tauto.
  - destruct (Py.isspace c); simpl; [exact IH | split; discriminate].
Qed.

Lemma all_space_rev : forall s, all_space (rev s) = all_space s.
Proof.
  unfold all_space. induction s as [|c s IH]; simpl; [reflexivity|].
  rewrite forallb_app, IH. simpl. rewrite andb_true_r. apply andb_comm.
Qed.

Lemma lstrip_all_space : forall s, all_space (Py.lstrip s) = all_space s.
Proof.
  induction s as [|c s IH]; simpl; [reflexivity|].
  destruct (Py.isspace c) eqn:E; simpl; [exact IH | now rewrite E].
Qed.

(** [line.strip()] is true exactly when the line has a character that is
    not whitespace. *)
Lemma truthy_strip : forall s, Py.truthy (Py.strip s) = negb (all_space s).
Proof.
  intros s. unfold Py.strip, Py.rstrip.
  destruct (all_space s) eqn:E.
  - assert (H : Py.lstrip (rev (Py.lstrip s)) = []).
    { apply lstrip_nil_iff. now rewrite all_space_rev, lstrip_all_space. }
    now rewrite H.
  - destruct (Py.lstrip (rev (Py.lstrip s))) as [|c r] eqn:H.
    + apply lstrip_nil_iff in H.
      rewrite all_space_rev, lstrip_all_space in H. congruence.
    + simpl. destruct (rev r ++ [c]) eqn:H'; [|reflexivity].
      now destruct (rev r).
Qed.

Lemma lstrip_head : forall s c r, Py.lstrip s = c :: r -> Py.isspace c = false.
Proof.
  induction s as [|x s IH]; simpl; intros c r H; [discriminate|].
  destruct (Py.isspace x) eqn:E; [eauto | congruence].
Qed.

(** A string is its leading whitespace followed by its [lstrip]. *)
Lemma lstrip_split : forall s,
  exists lead, s = lead ++ Py.lstrip s /\ all_space lead = true.
Proof.
  induction s as [|x s [lead [H1 H2]]]; simpl.
  - exists []. now split.
  - destruct (Py.isspace x) eqn:E.
    + exists (x :: lead). simpl. rewrite E, H2. split; [now rewrite <- H1 | reflexivity].
    + exists []. now split.
Qed.

Lemma token_split : forall s, s = first_token s ++ skip_token s.
Proof.
  induction s as [|x s IH]; simpl; [reflexivity|].
  destruct (Py.isspace x); simpl; [reflexivity | now rewrite <- IH].
Qed.

Lemma first_token_no_space : forall s, no_space (first_token s) = true.
Proof.
  induction s as [|x s IH]; simpl; [reflexivity|].
  destruct (Py.isspace x) eqn:E; simpl; [reflexivity | now rewrite E].
Qed.

Lemma skip_token_head : forall s c r, skip_token s = c :: r -> Py.isspace c = true.
Proof.
  induction s as [|x s IH]; simpl; intros c r H; [discriminate|].
  destruct (Py.isspace x) eqn:E; [congruence | eauto].
Qed.

(** While a token is being read, the scan finishes it at the next
    whitespace character and goes on from there. *)
Lemma split_scan_token : forall s k t,
  Py.split_scan k (Some t) s = (t ++ first_token s) :: Py.split_scan k None (skip_token s).
Proof.
  induction s as [|c s IH]; intros k t; simpl.
  - now rewrite app_nil_r.
  - destruct (Py.isspace c) eqn:E; simpl.
    + now rewrite E, app_nil_r.
    + rewrite IH, <- app_assoc. reflexivity.
Qed.

Lemma split_scan_lstrip : forall s k,
  Py.split_scan k None s = Py.split_scan k None (Py.lstrip s).
Proof.
  induction s as [|c s IH]; intros k; simpl; [reflexivity|].
  destruct (Py.isspace c) eqn:E; [apply IH | simpl; now rewrite E].
Qed.

(** Between tokens, the scan skips whitespace, then reads one more token
    if a split is left and otherwise takes all the rest as one piece. *)
Lemma split_scan_between : forall s k,
  Py.split_scan k None s =
  match Py.lstrip s with
  | [] => []
  | c :: r =>
      if 0 <? k
      then first_token (c :: r) :: Py.split_scan (k - 1) None (skip_token (c :: r))
      else [c :: r]
  end.
Proof.
  intros s k. rewrite split_scan_lstrip.
  destruct (Py.lstrip s) as [|c r] eqn:H; [reflexivity|].
  pose proof (lstrip_head _ _ _ H) as E. simpl. rewrite E.
  destruct (0 <? k); [|reflexivity].
  now rewrite split_scan_token.
Qed.

Lemma split_scan_nil_iff : forall s k,
  Py.split_scan k None s = [] <-> Py.lstrip s = [].
Proof.
  intros s k. rewrite split_scan_between.
  destruct (Py.lstrip s) as [|c r]; [tauto|].
  destruct (0 <? k); split; discriminate.
Qed.

(** [line.split(maxsplit=1)]: nothing for a line of whitespace, else the
    first token, and the remainder when there is one. *)
Lemma split_1 : forall line,
  Py.split 1 line =
  match Py.lstrip line with
  | [] => []
  | s1 => first_token s1 :: match remainder line with [] => [] | r => [r] end
  end.
Proof.
  intros line. unfold Py.split, remainder. simpl.
  rewrite split_scan_between.
  destruct (Py.lstrip line) as [|c r] eqn:H; [reflexivity|].
  change (0 <? 1) with true. cbv iota. f_equal.
  change (1 - 1) with 0. rewrite split_scan_between.
  destruct (Py.lstrip (skip_token (c :: r))); reflexivity.
Qed.

(** [line.split()] starts with the same first token, and has a second
    token exactly when the remainder is not empty. *)
Lemma tokens_cons : forall line,
  tokens line =
  match Py.lstrip line with
  | [] => []
  | s1 => first_token s1
          :: Py.split_scan (Py.PY_SSIZE_T_MAX - 1) None (skip_token s1)
  end.
Proof.
  intros line. unfold tokens, Py.split. simpl.
  rewrite split_scan_between.
  destruct (Py.lstrip line) as [|c r]; reflexivity.
Qed.

Lemma tokens_two_iff : forall line,
  2 <= Py.len (tokens line) <-> remainder line <> [].
Proof.
  intros line. rewrite tokens_cons. unfold remainder, Py.len.
  destruct (Py.lstrip line) as [|c r] eqn:H.
  - simpl. split; [lia | congruence].
  - cbn [List.length].
    pose proof (split_scan_nil_iff (skip_token (c :: r)) (Py.PY_SSIZE_T_MAX - 1)) as N.
    destruct (Py.split_scan (Py.PY_SSIZE_T_MAX - 1) None (skip_token (c :: r))) as [|t ts].
    + split; [simpl; lia | intros F; exfalso; apply F; now apply N].
    + split; [intros _ F; apply N in F; discriminate | simpl; lia].
Qed.

Lemma tokens_hd : forall line,
  hd [] (tokens line) = first_token (Py.lstrip line).
Proof.
  intros line. rewrite tokens_cons.
  destruct (Py.lstrip line); reflexivity.
Qed.

(** What a line adds to the rules read so far. *)
Lemma rules_of_line_eq : forall line,
  rules_of_line line =
  match remainder line with
  | [] => []
  | r => [mkRule (first_token (Py.lstrip line)) r]
  end.
Proof.
  intros line. unfold rules_of_line, add_line.
  rewrite truthy_strip, split_1.
  destruct (Py.lstrip line) as [|c r] eqn:H.
  - assert (A : all_space line = true) by now apply lstrip_nil_iff.
    rewrite A. simpl. unfold remainder. now rewrite H.
  - assert (A : all_space line = false).
    { destruct (all_space line) eqn:A; [|reflexivity].
      apply lstrip_nil_iff in A. congruence. }
    rewrite A. simpl negb. cbv iota.
    destruct (remainder line); reflexivity.
Qed.

Lemma add_line_app : forall rules line,
  add_line rules line = rules ++ rules_of_line line.
Proof.
  intros rules line. unfold rules_of_line, add_line.
  destruct (Py.truthy (Py.strip line)); [|now rewrite app_nil_r].
  destruct (Py.split 1 line) as [|p0 [|p1 ps]]; simpl; now rewrite ?app_nil_r.
Qed.

(** The loop over the lines appends, line after line, what each line
    contributes. *)
Lemma fold_add_line : forall ls rules,
  fold_left add_line ls rules = rules ++ flat_map rules_of_line ls.
Proof.
  induction ls as [|l ls IH]; intros rules; simpl.
  - now rewrite app_nil_r.
  - rewrite IH, add_line_app, <- app_assoc. reflexivity.
Qed.

(** The line around its first token, when something follows the token:
    leading whitespace, the token, the whitespace run that ends it, and
    the remainder, which starts with a character that is not whitespace. *)
Lemma line_shape : forall line,
  remainder line <> [] ->
  exists lead sep,
    line = lead ++ first_token (Py.lstrip line) ++ sep ++ remainder line
    /\ all_space lead = true
    /\ no_space (first_token (Py.lstrip line)) = true
    /\ sep <> [] /\ all_space sep = true
    /\ all_space (firstn 1 (remainder line)) = false.
Proof.
  intros line NE. unfold remainder in *.
  destruct (lstrip_split line) as [lead [H1 H2]].
  destruct (lstrip_split (skip_token (Py.lstrip line))) as [sep [H3 H4]].
  exists lead, sep. split; [|split; [exact H2|split; [apply first_token_no_space|]]].
  - rewrite <- H3, <- token_split. exact H1.
  - destruct (Py.lstrip (skip_token (Py.lstrip line))) as [|c r] eqn:R; [congruence|].
    pose proof (lstrip_head _ _ _ R) as C.
    split; [|split; [exact H4 | simpl; now rewrite C]].
    intros ->. simpl in H3.
    apply skip_token_head in H3. congruence.
Qed.

(** ** The monad at work *)

Ltac step_m :=
  unfold bind, ret, raise, get, update, try_except, except_CalledProcessError in *;
  simpl in *.

Lemma check_output_eq : forall argv o s,
  Subprocess.check_output argv o s =
  (match o with
   | Exited rc out => if rc =? 0 then Ok out else Raise (CalledProcessError rc)
   | LaunchFailed f => Raise (LaunchError f)
   end, mkSys (tui s) (calls s ++ [argv])).
Proof.
  intros argv o s. unfold Subprocess.check_output, Subprocess.spawn. step_m.
  destruct o as [rc out|f]; [destruct (rc =? 0)|]; reflexivity.
Qed.

Lemma subprocess_run_eq : forall argv o s,
  Subprocess.run argv o s =
  (match o with
   | Exited rc _ => if rc =? 0 then Ok tt else Raise (CalledProcessError rc)
   | LaunchFailed f => Raise (LaunchError f)
   end, mkSys (tui s) (calls s ++ [argv])).
Proof.
  intros argv o s. unfold Subprocess.run, Subprocess.spawn. step_m.
  destruct o as [rc out|f]; [destruct (rc =? 0)|]; reflexivity.
Qed.

(** [get_ipfw_rules] in one equation: its result for each outcome of the
    listing, and the one invocation it makes. *)
Lemma get_ipfw_rules_eq : forall o s,
  get_ipfw_rules o s =
  (match o with
   | Exited rc out =>
       if rc =? 0 then
         match Py.decode out with
         | Some output => Ok (flat_map rules_of_line (lines output))
         | None => Raise UnicodeDecodeError
         end
       else Ok []
   | LaunchFailed f => Raise (LaunchError f)
   end, mkSys (tui s) (calls s ++ [ipfw_list])).
Proof.
  intros o s. unfold get_ipfw_rules, try_except, bind.
  rewrite check_output_eq.
  destruct o as [rc out|f]; simpl; [|reflexivity].
  destruct (rc =? 0); simpl; [|reflexivity].
  unfold decode. destruct (Py.decode out); simpl; [|reflexivity].
  unfold ret. now rewrite fold_add_line.
Qed.

(** [execute_ipfw_command] in one equation. *)
Lemma execute_ipfw_command_eq : forall cmd o s,
  execute_ipfw_command cmd o s =
  (match o with
   | Exited rc _ => Ok (rc =? 0)
   | LaunchFailed f => Raise (LaunchError f)
   end,
   mkSys (if succeeded o && Py.truthy (Py.strip cmd)
          then set_command_history (command_history (tui s) ++ [cmd]) (tui s)
          else tui s)
         (calls s ++ [Py.lit "ipfw" :: Py.split (-1) cmd])).
Proof.
  intros cmd o s. unfold execute_ipfw_command, try_except, bind.
  rewrite subprocess_run_eq.
  destruct o as [rc out|f]; simpl; [|reflexivity].
  destruct (rc =? 0); simpl; [|reflexivity].
  destruct (Py.truthy (Py.strip cmd)); reflexivity.
Qed.

(** ** Fetching the rules *)

(** C1, as amended.  When the listing command exits with a non-zero code,
    [get_ipfw_rules] returns the empty list; when the command cannot be
    started (the tool is absent, say), the error of the launch is not
    caught: it is raised to the caller. *)
Theorem get_ipfw_rules_on_failure : forall o s,
  succeeded o = false ->
  fst (get_ipfw_rules o s) =
  match o with
  | Exited _ _ => Ok []
  | LaunchFailed f => Raise (LaunchError f)
  end.
Proof.
  intros o s H. rewrite get_ipfw_rules_eq. simpl.
  destruct o as [rc out|f]; [|reflexivity].
  simpl in H. now rewrite H.
Qed.

Lemma get_ipfw_rules_on_failure_witness :
  fst (get_ipfw_rules failed start) = Ok []
  /\ fst (get_ipfw_rules absent start) = Raise (LaunchError FileNotFoundError).
Proof.
  split.
  - exact (get_ipfw_rules_on_failure failed start eq_refl).
  - exact (get_ipfw_rules_on_failure absent start eq_refl).
Defined.

(** C1 as stated fails: with the tool absent the invocation fails, and
    [get_ipfw_rules] raises instead of returning the empty list. *)
Lemma get_ipfw_rules_absent_tool :
  succeeded absent = false
  /\ fst (get_ipfw_rules absent start) = Raise (LaunchError FileNotFoundError)
  /\ fst (get_ipfw_rules absent start) <> Ok [].
Proof. repeat split. discriminate. Qed.

(** C5.  For a listing whose output decodes to [output], the rules are
    those of its lines, in the order of the lines, each line giving one
    rule or none.  A line with at least two tokens gives exactly one rule:
    its number is the first token, its text the remainder, that is, what
    follows the whitespace run after the first token, up to the end of the
    line; the line is, in this order, whitespace or nothing, the number,
    a run of whitespace, the text.  A line with fewer than two tokens, so
    also a blank line, gives none. *)
Theorem get_ipfw_rules_parse : forall out output s,
  Py.decode out = Some output ->
  fst (get_ipfw_rules (Exited 0 out) s) = Ok (flat_map rules_of_line (lines output))
  /\ (forall line, 2 <= Py.len (tokens line) ->
        rules_of_line line = [mkRule (hd [] (tokens line)) (remainder line)]
        /\ exists lead sep,
             line = lead ++ hd [] (tokens line) ++ sep ++ remainder line
             /\ all_space lead = true
             /\ no_space (hd [] (tokens line)) = true
             /\ sep <> [] /\ all_space sep = true
             /\ all_space (firstn 1 (remainder line)) = false)
  /\ (forall line, Py.len (tokens line) < 2 -> rules_of_line line = []).
Proof.
  intros out output s D. split; [|split].
  - rewrite get_ipfw_rules_eq. simpl. now rewrite D.
  - intros line T. rewrite tokens_hd. apply tokens_two_iff in T.
    split; [|now apply line_shape].
    rewrite rules_of_line_eq.
    destruct (remainder line); [congruence | reflexivity].
  - intros line T. rewrite rules_of_line_eq.
    destruct (remainder line) as [|c r] eqn:R; [reflexivity|].
    assert (2 <= Py.len (tokens line)) by (apply tokens_two_iff; congruence).
    lia.
Qed.

Lemma get_ipfw_rules_parse_witness :
  fst (get_ipfw_rules (Exited 0 two_rules_output) start) =
  Ok [mkRule (Py.lit "00100") (Py.lit "allow ip from any to any via lo0");
      mkRule (Py.lit "65535") (Py.lit "deny ip from any to any")].
Proof.
  exact (proj1 (get_ipfw_rules_parse two_rules_output
                  (List.map Byte.to_N two_rules_output) start eq_refl)).
Defined.

(** ** Running a command *)

(** C2, as amended.  [execute_ipfw_command] returns [False] when the
    external invocation exits with a non-zero code and [True] when it
    exits with zero; when the process cannot be started, the error of the
    launch is raised to the caller. *)
Theorem execute_ipfw_command_result : forall cmd o s,
  fst (execute_ipfw_command cmd o s) =
  match o with
  | Exited rc _ => Ok (rc =? 0)
  | LaunchFailed f => Raise (LaunchError f)
  end.
Proof. intros cmd o s. now rewrite execute_ipfw_command_eq. Qed.

(** C2 as stated fails: with the tool absent, [execute_ipfw_command]
    does not return [False], it raises. *)
Lemma execute_ipfw_command_absent_tool :
  succeeded absent = false
  /\ fst (execute_ipfw_command (Py.lit "delete 65000") absent start)
     = Raise (LaunchError FileNotFoundError)
  /\ fst (execute_ipfw_command (Py.lit "delete 65000") absent start) <> Ok false.
Proof. repeat split. discriminate. Qed.

(** C9.  [execute_ipfw_command] appends the command text to the history
    exactly when the invocation succeeds and the text is not blank; in
    every other case, a failed invocation among them, the history is as
    it was. *)
Theorem execute_ipfw_command_history : forall cmd o s,
  command_history (tui (snd (execute_ipfw_command cmd o s))) =
  if succeeded o && negb (all_space cmd)
  then command_history (tui s) ++ [cmd]
  else command_history (tui s).
Proof.
  intros cmd o s. rewrite execute_ipfw_command_eq. simpl.
  rewrite truthy_strip.
  destruct (succeeded o && negb (all_space cmd)); reflexivity.
Qed.

(** ** The loop *)

Lemma lists_eq : forall o rules s,
  lists o rules ->
  get_ipfw_rules o s = (Ok rules, mkSys (tui s) (calls s ++ [ipfw_list])).
Proof.
  intros o rules s H. specialize (H s).
  rewrite get_ipfw_rules_eq in *. simpl in H. now rewrite H.
Qed.

Lemma str_eqb_eq : forall a b, Py.str_eqb a b = true -> a = b.
Proof.
  intros a b. unfold Py.str_eqb.
  destruct (list_eq_dec N.eq_dec a b); [trivial | discriminate].
Qed.

(** A key whose lower case is the letter [c] is none of the other
    letters. *)
Lemma lower_is_other : forall k c d,
  lower_is k c = true -> Py.str_eqb (Py.lit c) (Py.lit d) = false ->
  lower_is k d = false.
Proof.
  intros k c d H N. unfold lower_is in *.
  apply str_eqb_eq in H. now rewrite H.
Qed.

Lemma code_is_other : forall k a b,
  code_is k a = true -> (a =? b) = false -> code_is k b = false.
Proof.
  intros k a b H N. unfold code_is in *.
  destruct (code k) as [c|]; [|reflexivity].
  apply Z.eqb_eq in H. now subst.
Qed.

Lemma no_code_is : forall k c, code k = None -> code_is k c = false.
Proof. intros k c H. unfold code_is. now rewrite H. Qed.

(** An index in range finds its element. *)
Lemma getitem_in_range : forall (A : Type) (l : list A) (i : Z) s,
  0 <= i < Py.len l ->
  exists x, nth_error l (Z.to_nat i) = Some x /\ getitem l i s = (Ok x, s).
Proof.
  intros A l i s [H0 H1]. unfold getitem, Py.len in *.
  assert (E : (i <? 0) = false) by lia. cbv zeta. rewrite !E.
  destruct (nth_error l (Z.to_nat i)) as [x|] eqn:N.
  - exists x. split; reflexivity.
  - apply nth_error_None in N. lia.
Qed.

Lemma clear_status_eq : forall s,
  clear_status s =
  (Ok tt, mkSys (if command_mode (tui s) then tui s
                 else set_status_message [] (tui s)) (calls s)).
Proof.
  intros [t c]. unfold clear_status, bind, get, update, ret. cbn [tui calls].
  destruct (command_mode t); reflexivity.
Qed.

(** The end of a turn that is not cut short by [continue]. *)
Lemma end_of_turn_eq : forall s,
  (clear_status ;; ret Next) s =
  (Ok Next, mkSys (if command_mode (tui s) then tui s
                   else set_status_message [] (tui s)) (calls s)).
Proof. intros s. unfold bind. now rewrite clear_status_eq. Qed.

(** The turn of [run] in Browsing, for a key that is not 'q'. *)
Lemma iteration_browsing : forall i s rules,
  command_mode (tui s) = false ->
  lists (listing i) rules ->
  lower_is (key i) "q" = false ->
  iteration i s =
  (browse (key i) (height i) (command i) ;; clear_status ;; ret Next)
    (mkSys (set_current_rules rules (tui s)) (calls s ++ [ipfw_list])).
Proof.
  intros i s rules C L Q. unfold iteration at 1. unfold bind at 1.
  rewrite (lists_eq _ _ _ L). unfold bind at 1. unfold update at 1.
  unfold bind at 1. unfold get at 1. cbn [tui set_current_rules command_mode].
  now rewrite C, Q.
Qed.

(** The turn of [run] in CommandEntry. *)
Lemma iteration_command : forall i s rules,
  command_mode (tui s) = true ->
  lists (listing i) rules ->
  iteration i s =
  (leave <- handle_command_input (key i) (command i) ;;
   if leave then ret Next else clear_status ;; ret Next)
    (mkSys (set_current_rules rules (tui s)) (calls s ++ [ipfw_list])).
Proof.
  intros i s rules C L. unfold iteration at 1. unfold bind at 1.
  rewrite (lists_eq _ _ _ L). unfold bind at 1. unfold update at 1.
  unfold bind at 1. unfold get at 1. cbn [tui set_current_rules command_mode].
  now rewrite C.
Qed.

(** 'd' in Browsing, on a valid selection. *)
Lemma browse_d : forall k h o t c,
  code k = None -> lower_is k "d" = true ->
  0 <= selected_index t < Py.len (current_rules t) ->
  exists r,
    nth_error (current_rules t) (Z.to_nat (selected_index t)) = Some r
    /\ browse k h o (mkSys t c) =
       (match o with
        | Exited _ _ => Ok tt
        | LaunchFailed f => Raise (LaunchError f)
        end,
        mkSys (match o with
               | Exited rc _ =>
                   set_status_message
                     (if rc =? 0 then Py.lit "Deleted rule " ++ number r
                      else Py.lit "Error deleting rule")
                     (after_command (Py.lit "delete " ++ number r) o t)
               | LaunchFailed _ => after_command (Py.lit "delete " ++ number r) o t
               end)
              (c ++ [Py.lit "ipfw" :: Py.split (-1) (Py.lit "delete " ++ number r)])).
Proof.
  intros k h o t c K D R.
  destruct (getitem_in_range _ (current_rules t) (selected_index t) (mkSys t c) R)
    as [r [N G]].
  exists r. split; [exact N|].
  unfold browse, bind at 1, get at 1. cbn [tui].
  rewrite !(no_code_is _ _ K), D.
  rewrite (lower_is_other _ _ "a" D eq_refl).
  assert (T : Py.truthy (current_rules t) = true).
  { destruct (current_rules t); [unfold Py.len in R; simpl in R; lia | reflexivity]. }
  rewrite T. unfold bind at 1. rewrite G.
  unfold bind. rewrite execute_ipfw_command_eq. unfold after_command. cbn [tui calls].
  destruct o as [rc out|f]; [|reflexivity].
  destruct (rc =? 0); reflexivity.
Qed.



(** C7.  In Browsing, with a rule list that is not empty and a valid
    [selected_index], the key 'e' enters CommandEntry with the command
    buffer set to "delete <number> && add <text>" for the selected rule;
    it runs nothing but the listing of the turn, and the history cursor
    is placed after the last entry of the history. *)
Theorem edit_prefills_command : forall i s rules,
  command_mode (tui s) = false ->
  lists (listing i) rules ->
  0 <= selected_index (tui s) < Py.len rules ->
  code (key i) = None -> lower_is (key i) "e" = true ->
  exists r s',
    nth_error rules (Z.to_nat (selected_index (tui s))) = Some r
    /\ iteration i s = (Ok Next, s')
    /\ command_mode (tui s') = true
    /\ command_string (tui s') =
       Py.lit "delete " ++ number r ++ Py.lit " && add " ++ rule r
    /\ history_index (tui s') = Py.len (command_history (tui s'))
    /\ calls s' = calls s ++ [ipfw_list].
Proof.
  intros i s rules C L R K E.
  rewrite (iteration_browsing i s rules C L (lower_is_other _ _ "q" E eq_refl)).
  set (s1 := mkSys (set_current_rules rules (tui s)) (calls s ++ [ipfw_list])).
  destruct (getitem_in_range _ rules (selected_index (tui s)) s1 R) as [r [N G]].
  assert (T : Py.truthy rules = true).
  { destruct rules; [unfold Py.len in R; simpl in R; lia | reflexivity]. }
  assert (B : browse (key i) (height i) (command i) s1 =
              (Ok tt,
               mkSys (set_history_index (Py.len (command_history (tui s)))
                        (set_command_string
                           (Py.lit "delete " ++ number r ++ Py.lit " && add " ++ rule r)
                           (set_command_mode true (tui s1))))
                     (calls s1))).
  { unfold browse, bind at 1, get at 1. cbn [tui s1 current_rules set_current_rules
      selected_index].
    rewrite !(no_code_is _ _ K), E, T.
    rewrite (lower_is_other _ _ "a" E eq_refl), (lower_is_other _ _ "d" E eq_refl).
    cbn [andb]. unfold bind at 1. fold s1. rewrite G. reflexivity. }
  exists r. eexists. split; [exact N|]. split.
  - unfold bind at 1. rewrite B. rewrite end_of_turn_eq. reflexivity.
  - cbn. repeat split; reflexivity.
Qed.

Lemma edit_prefills_command_witness :
  exists r s',
    nth_error [sample_rule] 0 = Some r
    /\ iteration (mkInput (Exited 0 sample_output) (key_char "E") 24 ok) start
       = (Ok Next, s')
    /\ command_mode (tui s') = true
    /\ command_string (tui s') =
       Py.lit "delete " ++ number r ++ Py.lit " && add " ++ rule r
    /\ history_index (tui s') = Py.len (command_history (tui s'))
    /\ calls s' = [] ++ [ipfw_list].
Proof.
  refine (edit_prefills_command
            (mkInput (Exited 0 sample_output) (key_char "E") 24 ok)
            start [sample_rule] eq_refl _ _ eq_refl eq_refl).
  - intros s. reflexivity.
  - simpl. unfold Py.len. simpl. lia.
Defined.

(** C10.  When the rule list is empty, the keys 'd' and 'e' in Browsing
    do nothing: what the loop does for the key returns without raising,
    with the object and the record of the invocations exactly as they
    were, so that no command is run, no rule is indexed and CommandEntry
    is not entered. *)
Theorem empty_rules_d_e_no_op : forall k h o s,
  command_mode (tui s) = false ->
  current_rules (tui s) = [] ->
  code k = None ->
  lower_is k "d" = true \/ lower_is k "e" = true ->
  browse k h o s = (Ok tt, s).
Proof.
  intros k h o [t c] _ R K [D|E]; cbn [tui] in R;
    unfold browse, bind at 1, get at 1; cbn [tui]; rewrite !(no_code_is _ _ K), R.
  - now rewrite D, (lower_is_other _ _ "a" D eq_refl).
  - now rewrite E, (lower_is_other _ _ "a" E eq_refl), (lower_is_other _ _ "d" E eq_refl).
Qed.

Lemma empty_rules_d_e_no_op_witness :
  status_message (tui status_on_display) = Py.lit "Error executing command"
  /\ browse (key_char "d") 24 failed status_on_display = (Ok tt, status_on_display)
  /\ browse (key_char "E") 24 failed status_on_display = (Ok tt, status_on_display).
Proof.
  split; [reflexivity|]. split.
  - exact (empty_rules_d_e_no_op (key_char "d") 24 failed status_on_display
             eq_refl eq_refl eq_refl (or_introl eq_refl)).
  - exact (empty_rules_d_e_no_op (key_char "E") 24 failed status_on_display
             eq_refl eq_refl eq_refl (or_intror eq_refl)).
Defined.

(** The whole turn of such a key: the listing is its only invocation, and
    the turn ends as every turn of Browsing does, with the status message
    cleared. *)
Lemma empty_rules_turn : forall i s,
  command_mode (tui s) = false ->
  lists (listing i) [] ->
  code (key i) = None ->
  lower_is (key i) "d" = true \/ lower_is (key i) "e" = true ->
  iteration i s =
  (Ok Next,
   mkSys (set_status_message [] (set_current_rules [] (tui s)))
         (calls s ++ [ipfw_list])).
Proof.
  intros i s C L K [D|E].
  - rewrite (iteration_browsing i s [] C L (lower_is_other _ _ "q" D eq_refl)).
    unfold bind at 1, browse, bind at 1, get at 1. cbn [tui current_rules set_current_rules].
    rewrite !(no_code_is _ _ K), D, (lower_is_other _ _ "a" D eq_refl).
    cbn [Py.truthy]. unfold ret at 1. rewrite end_of_turn_eq.
    cbn [tui calls command_mode set_current_rules]. now rewrite C.
  - rewrite (iteration_browsing i s [] C L (lower_is_other _ _ "q" E eq_refl)).
    unfold bind at 1, browse, bind at 1, get at 1. cbn [tui current_rules set_current_rules].
    rewrite !(no_code_is _ _ K), E, (lower_is_other _ _ "a" E eq_refl),
      (lower_is_other _ _ "d" E eq_refl).
    cbn [Py.truthy andb]. unfold ret at 1. rewrite end_of_turn_eq.
    cbn [tui calls command_mode set_current_rules]. now rewrite C.
Qed.

(** ** The status message *)

(** A turn that starts and ends in Browsing leaves no status message,
    whatever the key did. *)
Lemma browsing_turn_clears_status : forall i s s',
  command_mode (tui s) = false ->
  iteration i s = (Ok Next, s') ->
  command_mode (tui s') = false ->
  status_message (tui s') = [].
Proof.
  intros i s s' C H C'. unfold iteration in H. unfold bind at 1 in H.
  rewrite get_ipfw_rules_eq in H.
  match type of H with (match ?r with Ok _ => _ | Raise _ => _ end) = _ =>
    destruct r as [rules|e] end; [|discriminate].
  unfold bind at 1, update at 1, bind at 1, get at 1 in H.
  cbn [tui command_mode set_current_rules] in H. rewrite C in H.
  destruct (lower_is (key i) "q"); [discriminate|].
  unfold bind at 1 in H.
  destruct (browse (key i) (height i) (command i) _) as [[[]|e] s1];
    [|cbv beta iota in H; discriminate H].
  rewrite end_of_turn_eq in H. injection H as <-. cbn [tui] in *.
  destruct (command_mode (tui s1)) eqn:E; [congruence | reflexivity].
Qed.

(** A key of Browsing that is not 'a', and not 'd' or 'e' on a list with
    rules, runs nothing, raises nothing and stays in Browsing. *)
Lemma browse_plain : forall k h o t c,
  lower_is k "a" = false ->
  lower_is k "d" && Py.truthy (current_rules t) = false ->
  lower_is k "e" && Py.truthy (current_rules t) = false ->
  exists t',
    browse k h o (mkSys t c) = (Ok tt, mkSys t' c)
    /\ command_mode t' = command_mode t.
Proof.
  intros k h o t c A D E.
  unfold browse, bind at 1, get at 1. cbn [tui]. rewrite A, E.
  destruct (code_is k KEY_UP).
  - destruct (0 <? selected_index t); [|now exists t].
    unfold bind at 1, update at 1, bind at 1, get at 1.
    cbn [tui calls selected_index scroll_offset set_selected_index].
    destruct (selected_index t - 1 <? scroll_offset t);
      eexists; (split; [reflexivity|]); reflexivity.
  - destruct (code_is k KEY_DOWN).
    + destruct (selected_index t <? Py.len (current_rules t) - 1); [|now exists t].
      unfold bind at 1, update at 1, bind at 1, get at 1.
      cbn [tui calls selected_index scroll_offset set_selected_index].
      destruct (scroll_offset t + (h - 6) <=? selected_index t + 1);
        eexists; (split; [reflexivity|]); reflexivity.
    + destruct (lower_is k "d"); [|now exists t].
      simpl in D. rewrite D. now exists t.
Qed.

(** Enter in CommandEntry, when the process can be started. *)
Lemma handle_enter : forall k rc out t c,
  code_is k KEY_ENTER = true ->
  exists t',
    handle_command_input k (Exited rc out) (mkSys t c)
    = (Ok true, mkSys t' (c ++ [Py.lit "ipfw" :: Py.split (-1) (command_string t)]))
    /\ command_mode t' = false
    /\ command_string t' = []
    /\ status_message t' =
       if rc =? 0 then Py.lit "Command executed successfully"
       else Py.lit "Error executing command".
Proof.
  intros k rc out t c K.
  unfold handle_command_input, bind at 1, get at 1. cbn [tui]. rewrite K.
  unfold bind at 1. rewrite execute_ipfw_command_eq. cbn [tui calls].
  unfold bind, update, ret. cbn [tui calls].
  eexists. split; [reflexivity|]. cbn. repeat split; reflexivity.
Qed.

(** Escape in CommandEntry. *)
Lemma handle_escape : forall k o t c,
  code_is k KEY_ESCAPE = true ->
  handle_command_input k o (mkSys t c)
  = (Ok true, mkSys (set_command_string [] (set_command_mode false t)) c).
Proof.
  intros k o t c K.
  unfold handle_command_input, bind at 1, get at 1. cbn [tui].
  now rewrite (code_is_other _ _ KEY_ENTER K eq_refl), K.
Qed.

(** C3, as amended.  A turn that leaves CommandEntry, by Enter or by
    Escape, skips the clearing of the status message: after Enter the
    status set by the command is in place for the next [draw_screen], after
    Escape the status message is the one that was there before the key.  A
    turn of Browsing that does not quit ('q'), does not enter CommandEntry
    ('a', or 'e' on a list with rules) and runs no command ('d' on a list
    with rules) ends in Browsing with an empty status message. *)
Theorem status_after_return_to_browsing : forall i s rules,
  lists (listing i) rules ->
  (command_mode (tui s) = true -> code_is (key i) KEY_ENTER = true ->
   forall rc out, command i = Exited rc out ->
   exists s',
     iteration i s = (Ok Next, s')
     /\ command_mode (tui s') = false
     /\ status_message (tui s') =
        if rc =? 0 then Py.lit "Command executed successfully"
        else Py.lit "Error executing command")
  /\ (command_mode (tui s) = true -> code_is (key i) KEY_ESCAPE = true ->
      exists s',
        iteration i s = (Ok Next, s')
        /\ command_mode (tui s') = false
        /\ status_message (tui s') = status_message (tui s))
  /\ (command_mode (tui s) = false ->
      lower_is (key i) "q" = false -> lower_is (key i) "a" = false ->
      lower_is (key i) "d" && Py.truthy rules = false ->
      lower_is (key i) "e" && Py.truthy rules = false ->
      exists s',
        iteration i s = (Ok Next, s')
        /\ command_mode (tui s') = false
        /\ status_message (tui s') = []).
Proof.
  intros i s rules L. split; [|split].
  - intros C K rc out O. rewrite (iteration_command i s rules C L), O.
    destruct (handle_enter (key i) rc out (set_current_rules rules (tui s))
                (calls s ++ [ipfw_list]) K) as (t' & H & C' & _ & S').
    unfold bind at 1. rewrite H. unfold ret.
    eexists. split; [reflexivity|]. now split.
  - intros C K. rewrite (iteration_command i s rules C L).
    unfold bind at 1. rewrite handle_escape by exact K. unfold ret.
    eexists. split; [reflexivity|]. split; reflexivity.
  - intros C Q A D E. rewrite (iteration_browsing i s rules C L Q).
    destruct (browse_plain (key i) (height i) (command i)
                (set_current_rules rules (tui s)) (calls s ++ [ipfw_list]) A D E)
      as (t' & B & C').
    cbn [command_mode set_current_rules] in C'.
    unfold bind at 1. rewrite B, end_of_turn_eq. cbn [tui calls].
    rewrite C', C. eexists. split; [reflexivity|].
    split; [cbn; congruence | reflexivity].
Qed.

Lemma status_after_return_to_browsing_witness :
  exists s',
    iteration (mkInput (Exited 0 sample_output) key_escape 24 ok) stale_status
    = (Ok Next, s')
    /\ command_mode (tui s') = false
    /\ status_message (tui s') = Py.lit "Error executing command".
Proof.
  refine (proj1 (proj2 (status_after_return_to_browsing
                          (mkInput (Exited 0 sample_output) key_escape 24 ok)
                          stale_status [sample_rule] _)) eq_refl eq_refl).
  intros s. reflexivity.
Defined.

(** C3 as stated fails.  'a' and Enter run [ipfw] without arguments, which
    fails, and leave "Error executing command" on display; 'a' followed by
    Escape then returns to Browsing with that status still in place, not
    with an empty one. *)
Lemma status_kept_after_escape :
  let listed := Exited 0 sample_output in
  let keys := [mkInput listed (key_char "a") 24 ok;
               mkInput listed key_enter 24 failed;
               mkInput listed (key_char "a") 24 ok;
               mkInput listed key_escape 24 ok] in
  fst (run keys start) = Ok Next
  /\ calls (snd (run keys start))
     = [ipfw_list; ipfw_list; [Py.lit "ipfw"]; ipfw_list; ipfw_list]
  /\ command_mode (tui (snd (run keys start))) = false
  /\ status_message (tui (snd (run keys start))) = Py.lit "Error executing command"
  /\ status_message (tui (snd (run keys start))) <> [].
Proof. cbv zeta. repeat split. discriminate. Qed.

(** The key 'd' on the rule 65000 runs [ipfw delete 65000], which
    succeeds, and the turn ends in Browsing with an empty status message:
    "Deleted rule 65000" is assigned and cleared within the same turn, so
    that no [draw_screen] shows it. *)
Lemma status_cleared_after_delete :
  let d := mkInput (Exited 0 sample_output) (key_char "d") 24 ok in
  fst (iteration d start) = Ok Next
  /\ calls (snd (iteration d start))
     = [ipfw_list; [Py.lit "ipfw"; Py.lit "delete"; Py.lit "65000"]]
  /\ command_mode (tui (snd (iteration d start))) = false
  /\ status_message (tui (snd (iteration d start))) = [].
Proof. cbv zeta. repeat split. Qed.

(** ** Moving the selection *)

Lemma Forall_prefix : forall (A : Type) (P : A -> Prop) (n : nat) (l : list A),
  Forall P l -> Forall P (firstn n l).
Proof.
  intros A P n. induction n as [|n IH]; intros l F; simpl; [constructor|].
  destruct F as [|x l Px F]; constructor; auto.
Qed.

(** An arrow key is an escape sequence with one of the four codes. *)
Lemma arrow_shape : forall k,
  is_arrow k = true ->
  (exists r, ucs k = 27%N :: r)
  /\ code_is k KEY_UP || code_is k KEY_DOWN
     || code_is k KEY_LEFT || code_is k KEY_RIGHT = true.
Proof.
  intros k H. unfold is_arrow in H.
  destruct (ucs k) as [|c r]; [discriminate|].
  destruct c as [|p]; [discriminate|].
  repeat (destruct p as [p|p|]; try discriminate).
  split; [now exists r | exact H].
Qed.

(** An escape sequence is none of the letters that Browsing looks for. *)
Lemma escape_not_letter : forall k r c,
  ucs k = 27%N :: r -> In c ["q"; "a"; "d"; "e"]%string -> lower_is k c = false.
Proof.
  intros k r c U I. unfold lower_is, Py.str_eqb. rewrite U.
  destruct (list_eq_dec N.eq_dec (Py.lower (27%N :: r)) (Py.lit c)) as [E|]; [|reflexivity].
  simpl in I. destruct I as [<-|[<-|[<-|[<-|[]]]]]; discriminate E.
Qed.

Lemma arrow_not_q : forall k, is_arrow k = true -> lower_is k "q" = false.
Proof.
  intros k H. destruct (arrow_shape k H) as [[r U] _].
  apply (escape_not_letter k r); simpl; auto.
Qed.

(** The left and right keys do nothing in Browsing. *)
Lemma browse_left_right : forall k h o s,
  is_arrow k = true ->
  code_is k KEY_UP || code_is k KEY_DOWN = false ->
  browse k h o s = (Ok tt, s).
Proof.
  intros k h o s A K. destruct (arrow_shape k A) as [[r U] _].
  apply orb_false_iff in K. destruct K as [K1 K2].
  unfold browse, bind at 1, get at 1. rewrite K1, K2.
  rewrite !(escape_not_letter k r); simpl; auto.
Qed.

(** The up and down keys of Browsing keep the selection within the rule
    list and the scroll offset at or before the selection. *)
Lemma browse_arrow : forall k h o t c,
  code_is k KEY_UP || code_is k KEY_DOWN = true ->
  selection_ok (Py.len (current_rules t)) t ->
  exists t',
    browse k h o (mkSys t c) = (Ok tt, mkSys t' c)
    /\ command_mode t' = command_mode t
    /\ current_rules t' = current_rules t
    /\ selection_ok (Py.len (current_rules t)) t'.
Proof.
  intros k h o t c K (S0 & S1 & S2).
  unfold browse, bind at 1, get at 1. cbn [tui].
  destruct (code_is k KEY_UP) eqn:U.
  - destruct (Z.ltb_spec 0 (selected_index t)).
    + unfold bind at 1, update at 1, bind at 1, get at 1.
      cbn [tui calls selected_index scroll_offset set_selected_index].
      destruct (Z.ltb_spec (selected_index t - 1) (scroll_offset t));
        eexists; (split; [reflexivity|]); unfold selection_ok; cbn; repeat split; lia.
    + exists t. unfold selection_ok. repeat split; trivial.
  - simpl in K. rewrite K.
    destruct (Z.ltb_spec (selected_index t) (Py.len (current_rules t) - 1)).
    + unfold bind at 1, update at 1, bind at 1, get at 1.
      cbn [tui calls selected_index scroll_offset set_selected_index].
      destruct (Z.leb_spec (scroll_offset t + (h - 6)) (selected_index t + 1));
        eexists; (split; [reflexivity|]); unfold selection_ok; cbn; repeat split; lia.
    + exists t. unfold selection_ok. repeat split; trivial.
Qed.

(** One turn of Browsing on an arrow key. *)
Lemma arrow_turn : forall i s rules,
  command_mode (tui s) = false ->
  lists (listing i) rules ->
  is_arrow (key i) = true ->
  selection_ok (Py.len rules) (tui s) ->
  exists s',
    iteration i s = (Ok Next, s')
    /\ command_mode (tui s') = false
    /\ current_rules (tui s') = rules
    /\ selection_ok (Py.len rules) (tui s').
Proof.
  intros i s rules C L A S.
  rewrite (iteration_browsing i s rules C L (arrow_not_q _ A)).
  destruct (code_is (key i) KEY_UP || code_is (key i) KEY_DOWN) eqn:K.
  - destruct (browse_arrow (key i) (height i) (command i)
                (set_current_rules rules (tui s)) (calls s ++ [ipfw_list]) K S)
      as (t' & B & C' & R' & S').
    cbn [command_mode current_rules set_current_rules] in *.
    unfold bind at 1. rewrite B, end_of_turn_eq. cbn [tui calls].
    rewrite C', C. eexists. split; [reflexivity|]. cbn [tui].
    split; [cbn; congruence|]. split; [exact R'|]. exact S'.
  - unfold bind at 1. rewrite (browse_left_right _ _ _ _ A K), end_of_turn_eq.
    cbn [tui calls command_mode set_current_rules]. rewrite C.
    eexists. split; [reflexivity|]. cbn [tui].
    split; [exact C|]. split; [reflexivity | exact S].
Qed.

Lemma arrow_run : forall rules inputs s,
  command_mode (tui s) = false ->
  selection_ok (Py.len rules) (tui s) ->
  Forall (fun i => is_arrow (key i) = true /\ lists (listing i) rules) inputs ->
  exists s',
    run inputs s = (Ok Next, s')
    /\ command_mode (tui s') = false
    /\ selection_ok (Py.len rules) (tui s').
Proof.
  intros rules inputs. induction inputs as [|i inputs IH]; intros s C S F.
  - exists s. split; [reflexivity|]. split; assumption.
  - inversion F as [|? ? [A L] F']; subst.
    destruct (arrow_turn i s rules C L A S) as (s1 & T & C1 & _ & S1).
    destruct (IH s1 C1 S1 F') as (s' & R & C' & S').
    exists s'. split; [|now split].
    cbn [run]. unfold bind. now rewrite T.
Qed.

(** C4.  With one rule list, not empty, returned by every listing, and
    starting in Browsing from [selected_index = scroll_offset = 0], the
    loop runs through any sequence of arrow keys (up and down, which move
    the selection, left and right, which do not), whatever the height of
    the terminal at each of them, and after each key
    [0 <= scroll_offset <= selected_index < len(rules)]. *)
Theorem navigation_keeps_selection : forall rules inputs s n,
  rules <> [] ->
  command_mode (tui s) = false ->
  selected_index (tui s) = 0 ->
  scroll_offset (tui s) = 0 ->
  Forall (fun i => is_arrow (key i) = true /\ lists (listing i) rules) inputs ->
  exists s',
    run (firstn n inputs) s = (Ok Next, s')
    /\ 0 <= scroll_offset (tui s')
    /\ scroll_offset (tui s') <= selected_index (tui s')
    /\ selected_index (tui s') < Py.len rules.
Proof.
  intros rules inputs s n N C S0 S1 F.
  assert (S : selection_ok (Py.len rules) (tui s)).
  { unfold selection_ok. rewrite S0, S1.
    destruct rules; [congruence | unfold Py.len; simpl; lia]. }
  destruct (arrow_run rules (firstn n inputs) s C S) as (s' & R & _ & S').
  - now apply Forall_prefix.
  - exists s'. split; [exact R | exact S'].
Qed.

Lemma navigation_keeps_selection_witness :
  exists s',
    run (firstn 4 arrows) start = (Ok Next, s')
    /\ 0 <= scroll_offset (tui s')
    /\ scroll_offset (tui s') <= selected_index (tui s')
    /\ selected_index (tui s') < Py.len two_rules.
Proof.
  refine (navigation_keeps_selection two_rules arrows start 4 _ eq_refl eq_refl eq_refl _).
  - discriminate.
  - repeat constructor; intros s; reflexivity.
Defined.

(** ** The history cursor *)

Lemma code_is_some : forall k a, code_is k a = true -> no_code k = (a =? 0).
Proof.
  intros k a H. unfold code_is, no_code in *.
  destruct (code k) as [c|]; [|discriminate].
  apply Z.eqb_eq in H. now subst.
Qed.

(** Up and down in CommandEntry: the cursor moves as [cursor_move] says,
    the history and the mode stay, and the key does not leave the mode. *)
Lemma handle_up_down : forall k o t c,
  is_up_down k = true ->
  0 <= history_index t <= Py.len (command_history t) ->
  exists t',
    handle_command_input k o (mkSys t c) = (Ok false, mkSys t' c)
    /\ command_mode t' = command_mode t
    /\ command_history t' = command_history t
    /\ history_index t' =
       cursor_move (Py.len (command_history t)) (history_index t) k.
Proof.
  intros k o t c K [H0 H1]. unfold is_up_down in K.
  unfold handle_command_input, bind at 1, get at 1. cbn [tui].
  unfold cursor_move.
  destruct (code_is k KEY_UP) eqn:U.
  - rewrite (code_is_other _ _ KEY_ENTER U eq_refl),
      (code_is_other _ _ KEY_ESCAPE U eq_refl),
      (code_is_other _ _ KEY_BACKSPACE U eq_refl),
      (code_is_other _ _ KEY_DOWN U eq_refl), (code_is_some _ _ U).
    destruct (command_history t) as [|h0 hs] eqn:Hs; cbn [Py.truthy andb].
    + exists t. unfold Py.len in *. simpl in *. repeat split; trivial. lia.
    + destruct (Z.ltb_spec 0 (history_index t)).
      * unfold bind at 1, bind at 1, update at 1, bind at 1, get at 1.
        cbn [tui calls command_history history_index set_history_index].
        rewrite Hs.
        destruct (getitem_in_range _ (h0 :: hs) (history_index t - 1)
                    (mkSys (set_history_index (history_index t - 1) t) c))
          as [x [_ G]]; [lia|].
        unfold bind at 1. rewrite G. unfold update, ret.
        eexists. split; [reflexivity|]. cbn. repeat split; trivial. lia.
      * exists t. repeat split; trivial. lia.
  - simpl in K.
    rewrite (code_is_other _ _ KEY_ENTER K eq_refl),
      (code_is_other _ _ KEY_ESCAPE K eq_refl),
      (code_is_other _ _ KEY_BACKSPACE K eq_refl), K, (code_is_some _ _ K).
    destruct (command_history t) as [|h0 hs] eqn:Hs; cbn [Py.truthy andb].
    + exists t. unfold Py.len in *. simpl in *. repeat split; trivial.
      destruct (Z.ltb_spec (history_index t) (-1)); lia.
    + destruct (Z.ltb_spec (history_index t) (Py.len (h0 :: hs) - 1)).
      * unfold bind at 1, bind at 1, update at 1, bind at 1, get at 1.
        cbn [tui calls command_history history_index set_history_index].
        rewrite Hs.
        destruct (getitem_in_range _ (h0 :: hs) (history_index t + 1)
                    (mkSys (set_history_index (history_index t + 1) t) c))
          as [x [_ G]]; [lia|].
        unfold bind at 1. rewrite G. unfold update, ret.
        eexists. split; [reflexivity|]. cbn. repeat split; trivial.
      * exists t. repeat split; trivial.
Qed.

Lemma cursor_move_range : forall n idx k,
  0 <= idx <= n -> 0 <= cursor_move n idx k <= n.
Proof.
  intros n idx k H. unfold cursor_move.
  destruct (code_is k KEY_UP); [lia|].
  destruct (Z.ltb_spec idx (n - 1)); lia.
Qed.

(** One turn of CommandEntry on the up or the down key. *)
Lemma up_down_turn : forall i s,
  command_mode (tui s) = true ->
  (exists rules, lists (listing i) rules) ->
  is_up_down (key i) = true ->
  0 <= history_index (tui s) <= Py.len (command_history (tui s)) ->
  exists s',
    iteration i s = (Ok Next, s')
    /\ command_mode (tui s') = true
    /\ command_history (tui s') = command_history (tui s)
    /\ history_index (tui s') =
       cursor_move (Py.len (command_history (tui s))) (history_index (tui s)) (key i).
Proof.
  intros i s C [rules L] K H.
  rewrite (iteration_command i s rules C L).
  destruct (handle_up_down (key i) (command i) (set_current_rules rules (tui s))
              (calls s ++ [ipfw_list]) K H) as (t' & E & C' & H' & I').
  cbn [command_mode command_history history_index set_current_rules] in *.
  unfold bind at 1. rewrite E, end_of_turn_eq. cbn [tui calls].
  rewrite C', C. eexists. split; [reflexivity|]. cbn [tui].
  split; [congruence|]. split; assumption.
Qed.

Lemma up_down_run : forall inputs s,
  command_mode (tui s) = true ->
  0 <= history_index (tui s) <= Py.len (command_history (tui s)) ->
  Forall (fun i => is_up_down (key i) = true /\ exists rules, lists (listing i) rules)
         inputs ->
  exists s',
    run inputs s = (Ok Next, s')
    /\ command_mode (tui s') = true
    /\ command_history (tui s') = command_history (tui s)
    /\ 0 <= history_index (tui s') <= Py.len (command_history (tui s))
    /\ history_index (tui s') =
       fold_left (cursor_move (Py.len (command_history (tui s))))
                 (List.map key inputs) (history_index (tui s)).
Proof.
  induction inputs as [|i inputs IH]; intros s C H F.
  - exists s. split; [reflexivity|]. repeat split; trivial; lia.
  - inversion F as [|? ? [K L] F']; subst.
    destruct (up_down_turn i s C L K H) as (s1 & T & C1 & H1 & I1).
    assert (R1 : 0 <= history_index (tui s1) <= Py.len (command_history (tui s1))).
    { rewrite H1, I1. now apply cursor_move_range. }
    destruct (IH s1 C1 R1 F') as (s' & R & C' & H' & R' & I').
    exists s'. split; [cbn [run]; unfold bind; now rewrite T|].
    rewrite H1 in *. rewrite I1 in I'. repeat split; trivial; lia.
Qed.

(** The key 'a' enters CommandEntry with an empty buffer and the cursor
    after the last entry of the history. *)
Lemma a_enters_command_entry : forall i s rules,
  command_mode (tui s) = false ->
  lists (listing i) rules ->
  code (key i) = None -> lower_is (key i) "a" = true ->
  exists s',
    iteration i s = (Ok Next, s')
    /\ command_mode (tui s') = true
    /\ command_string (tui s') = []
    /\ command_history (tui s') = command_history (tui s)
    /\ history_index (tui s') = Py.len (command_history (tui s')).
Proof.
  intros i s rules C L K A.
  rewrite (iteration_browsing i s rules C L (lower_is_other _ _ "q" A eq_refl)).
  unfold bind at 1, browse, bind at 1, get at 1. cbn [tui].
  rewrite !(no_code_is _ _ K), A.
  unfold bind at 1, update at 1, bind at 1, update at 1, update at 1.
  cbn [tui calls]. rewrite end_of_turn_eq. cbn [tui calls command_mode
    set_history_index set_command_string set_command_mode].
  eexists. split; [reflexivity|]. cbn. repeat split; reflexivity.
Qed.

(** C8.  From the cursor position set on entering CommandEntry, which is
    [len(command_history)], the loop runs through any sequence of up and
    down keys, and after each of them [history_index] is within
    [0, len(command_history)]: every key moves it by one step at most, up
    stops at 0 and down at the last entry, and neither wraps around.  The
    history itself stays as it was. *)
Theorem history_cursor_in_range : forall inputs s n,
  command_mode (tui s) = true ->
  history_index (tui s) = Py.len (command_history (tui s)) ->
  Forall (fun i => is_up_down (key i) = true /\ exists rules, lists (listing i) rules)
         inputs ->
  exists s',
    run (firstn n inputs) s = (Ok Next, s')
    /\ command_mode (tui s') = true
    /\ command_history (tui s') = command_history (tui s)
    /\ 0 <= history_index (tui s') <= Py.len (command_history (tui s'))
    /\ history_index (tui s') =
       fold_left (cursor_move (Py.len (command_history (tui s))))
                 (List.map key (firstn n inputs)) (Py.len (command_history (tui s))).
Proof.
  intros inputs s n C H F.
  destruct (up_down_run (firstn n inputs) s C) as (s' & R & C' & H' & R' & I').
  - rewrite H. unfold Py.len. lia.
  - now apply Forall_prefix.
  - exists s'. rewrite H'. rewrite H in I'. repeat split; trivial; lia.
Qed.

Lemma history_cursor_in_range_witness :
  exists s',
    run (firstn 5 recalls) entered = (Ok Next, s')
    /\ command_mode (tui s') = true
    /\ command_history (tui s') = command_history (tui entered)
    /\ 0 <= history_index (tui s') <= Py.len (command_history (tui s'))
    /\ history_index (tui s') = 1.
Proof.
  refine (history_cursor_in_range recalls entered 5 eq_refl eq_refl _).
  repeat constructor; exists two_rules; intros s; reflexivity.
Defined.

(** ** Every session *)

Ltac session_parts := unfold session_ok; split; [|split; [|split; [|split]]].

Ltac session_done :=
  session_parts; unfold offsets_ok, cursor_ok, status_left, Py.len in *; cbn in *;
  first [assumption | lia | now left | tauto].

Lemma Forall_snoc : forall (A : Type) (P : A -> Prop) (l : list A) (x : A),
  Forall P l -> P x -> Forall P (l ++ [x]).
Proof. intros A P l x H Hx. apply Forall_app. split; [assumption | now constructor]. Qed.

(** [execute_ipfw_command] keeps what holds of a session. *)
Lemma execute_ipfw_command_ok : forall cmd o s,
  session_ok s -> session_ok (snd (execute_ipfw_command cmd o s)).
Proof.
  intros cmd o [t c] (O & H & B & S & C).
  rewrite execute_ipfw_command_eq. cbn [snd tui calls] in *.
  assert (CC : Forall runs_ipfw (c ++ [Py.lit "ipfw" :: Py.split (-1) cmd])).
  { now apply Forall_snoc. }
  destruct (succeeded o && Py.truthy (Py.strip cmd)) eqn:E.
  - apply andb_true_iff in E. destruct E as [_ E].
    rewrite truthy_strip in E. apply negb_true_iff in E.
    session_parts; cbn; try assumption.
    + unfold cursor_ok, Py.len in *. cbn. rewrite length_app. simpl. lia.
    + now apply Forall_snoc.
  - session_parts; assumption.
Qed.

Lemma getitem_state : forall (A : Type) (l : list A) (i : Z) s, snd (getitem l i s) = s.
Proof.
  intros A l i s. unfold getitem. cbv zeta.
  destruct (_ <? 0); [reflexivity|].
  destruct (nth_error l _); reflexivity.
Qed.

(** [handle_command_input] keeps what holds of a session. *)
Lemma handle_command_input_ok : forall k o s,
  session_ok s -> session_ok (snd (handle_command_input k o s)).
Proof.
  intros k o [t c] OK.
  unfold handle_command_input, bind at 1, get at 1. cbn [tui].
  destruct (code_is k KEY_ENTER).
  { unfold bind at 1.
    pose proof (execute_ipfw_command_ok (command_string t) o _ OK) as OK'.
    destruct (execute_ipfw_command (command_string t) o (mkSys t c)) as [[b|e] [t' c']];
      [|exact OK'].
    destruct OK' as (O & H & B & S & C). unfold bind, update, ret. cbn [snd tui calls] in *.
    session_parts; try assumption.
    cbn. unfold status_left. destruct b; auto. }
  destruct OK as (O & (H0 & H1) & B & S & C). cbn [tui calls] in *.
  destruct (code_is k KEY_ESCAPE).
  { unfold bind, update, ret. cbn. session_parts; try assumption. now split. }
  destruct (code_is k KEY_BACKSPACE).
  { unfold bind, update, ret. cbn. session_parts; try assumption. now split. }
  destruct (code_is k KEY_UP && Py.truthy (command_history t)).
  { destruct (Z.ltb_spec 0 (history_index t)).
    - unfold bind at 1, bind at 1, update at 1, bind at 1, get at 1, bind at 1.
      cbn [tui calls command_history history_index set_history_index].
      pose proof (getitem_state _ (command_history t) (history_index t - 1)
                    (mkSys (set_history_index (history_index t - 1) t) c)) as G.
      destruct (getitem _ _ _) as [[x|e] s1]; cbn [snd] in G; subst s1;
        unfold update, ret; cbn; session_parts; try assumption;
        unfold cursor_ok; cbn; lia.
    - unfold bind, ret. cbn. session_parts; try assumption. now split. }
  destruct (code_is k KEY_DOWN && Py.truthy (command_history t)).
  { destruct (Z.ltb_spec (history_index t) (Py.len (command_history t) - 1)).
    - unfold bind at 1, bind at 1, update at 1, bind at 1, get at 1, bind at 1.
      cbn [tui calls command_history history_index set_history_index].
      pose proof (getitem_state _ (command_history t) (history_index t + 1)
                    (mkSys (set_history_index (history_index t + 1) t) c)) as G.
      destruct (getitem _ _ _) as [[x|e] s1]; cbn [snd] in G; subst s1;
        unfold update, ret; cbn; session_parts; try assumption;
        unfold cursor_ok; cbn; lia.
    - unfold bind, ret. cbn. session_parts; try assumption. now split. }
  destruct (no_code k); unfold bind, update, ret; cbn; session_parts; try assumption;
    now split.
Qed.

(** What holds of a session, the status message apart. *)
Lemma session_ok_status : forall t c m,
  session_ok (mkSys t c) -> status_left m ->
  session_ok (mkSys (set_status_message m t) c).
Proof. intros t c m (O & H & B & S & C) M. session_parts; assumption. Qed.

(** The keys of Browsing keep what holds of a session; only 'd' leaves
    another status message, and then it returns and stays in Browsing. *)
Lemma browse_effect : forall k h o t c,
  session_ok (mkSys t c) -> command_mode t = false ->
  exists r t1 c1,
    browse k h o (mkSys t c) = (r, mkSys t1 c1)
    /\ session_ok (mkSys (set_status_message [] t1) c1)
    /\ (status_message t1 = status_message t
        \/ (command_mode t1 = false /\ r = Ok tt)).
Proof.
  intros k h o t c OK M.
  pose proof OK as (O & (H0 & H1) & B & S & C). cbn [tui calls] in *.
  assert (OK0 : session_ok (mkSys (set_status_message [] t) c)).
  { apply session_ok_status; [assumption | now left]. }
  unfold browse, bind at 1, get at 1. cbn [tui].
  destruct (code_is k KEY_UP).
  { destruct (Z.ltb_spec 0 (selected_index t)).
    - unfold bind at 1, update at 1, bind at 1, get at 1.
      cbn [tui calls selected_index scroll_offset set_selected_index].
      destruct O as [O0 O1].
      destruct (Z.ltb_spec (selected_index t - 1) (scroll_offset t));
        unfold update, ret; do 3 eexists; (split; [reflexivity|]);
        (split; [|now left]); session_done.
    - do 3 eexists. split; [reflexivity|]. split; [assumption | now left]. }
  destruct (code_is k KEY_DOWN).
  { destruct (Z.ltb_spec (selected_index t) (Py.len (current_rules t) - 1)).
    - unfold bind at 1, update at 1, bind at 1, get at 1.
      cbn [tui calls selected_index scroll_offset set_selected_index].
      destruct O as [O0 O1].
      destruct (Z.leb_spec (scroll_offset t + (h - 6)) (selected_index t + 1));
        unfold update, ret; do 3 eexists; (split; [reflexivity|]);
        (split; [|now left]); session_done.
    - do 3 eexists. split; [reflexivity|]. split; [assumption | now left]. }
  destruct (lower_is k "a").
  { unfold bind, update, ret. cbn [tui calls].
    do 3 eexists. split; [reflexivity|]. split; [|now left].
    session_done. }
  destruct (lower_is k "d").
  { destruct (Py.truthy (current_rules t));
      [|do 3 eexists; split; [reflexivity|]; split; [assumption | now left]].
    unfold bind at 1.
    pose proof (getitem_state _ (current_rules t) (selected_index t) (mkSys t c)) as G.
    destruct (getitem _ _ _) as [[x|e] s1]; cbn [snd] in G; subst s1;
      [|do 3 eexists; split; [reflexivity|]; split; [assumption | now left]].
    unfold bind at 1. rewrite execute_ipfw_command_eq. cbn [tui calls].
    pose proof (execute_ipfw_command_ok (Py.lit "delete " ++ number x) o _ OK) as E.
    rewrite execute_ipfw_command_eq in E. cbn [snd tui calls] in E.
    set (t1 := if succeeded o && Py.truthy (Py.strip (Py.lit "delete " ++ number x))
               then set_command_history
                      (command_history t ++ [Py.lit "delete " ++ number x]) t
               else t) in *.
    assert (M1 : command_mode t1 = false /\ status_message t1 = status_message t).
    { subst t1. destruct (_ && _); split; trivial. }
    destruct M1 as [M1 S1].
    assert (E0 : session_ok
                   (mkSys (set_status_message [] t1)
                      (c ++ [Py.lit "ipfw"
                             :: Py.split (-1) (Py.lit "delete " ++ number x)]))).
    { apply session_ok_status; [assumption | now left]. }
    destruct o as [rc out|f].
    - destruct (rc =? 0); unfold update; cbn [tui calls];
        do 3 eexists; (split; [reflexivity|]); (split; [exact E0|]); right; now split.
    - do 3 eexists. split; [reflexivity|]. split; [exact E0 | now left]. }
  destruct (lower_is k "e" && Py.truthy (current_rules t));
    [|do 3 eexists; split; [reflexivity|]; split; [assumption | now left]].
  unfold bind at 1.
  pose proof (getitem_state _ (current_rules t) (selected_index t) (mkSys t c)) as G.
  destruct (getitem _ _ _) as [[x|e] s1]; cbn [snd] in G; subst s1;
    [|do 3 eexists; split; [reflexivity|]; split; [assumption | now left]].
  unfold bind, update, get, ret. cbn [tui calls].
  do 3 eexists. split; [reflexivity|]. split; [|now left].
  session_done.
Qed.

Lemma clear_status_ok : forall s, session_ok s -> session_ok (snd (clear_status s)).
Proof.
  intros [t c] OK. rewrite clear_status_eq. cbn [snd tui calls].
  destruct (command_mode t); [assumption|].
  apply session_ok_status; [assumption | now left].
Qed.

(** One turn of the loop keeps what holds of a session, whatever the
    listing, the key and the command do. *)
Lemma iteration_ok : forall i s, session_ok s -> session_ok (snd (iteration i s)).
Proof.
  intros i [t c] OK. unfold iteration, bind at 1. rewrite get_ipfw_rules_eq.
  cbn [tui calls].
  assert (OK1 : forall rules,
             session_ok (mkSys (set_current_rules rules t) (c ++ [ipfw_list]))).
  { intros rules. destruct OK as (O & H & B & S & C).
    session_parts; try assumption. now apply Forall_snoc. }
  match goal with |- context [match ?r with Ok _ => _ | Raise _ => _ end] =>
    destruct r as [rules|e] end.
  2:{ cbn [snd]. specialize (OK1 (current_rules t)).
      destruct OK1 as (O & H & B & S & C). session_parts; assumption. }
  unfold bind at 1, update at 1, bind at 1, get at 1.
  cbn [tui calls command_mode set_current_rules].
  specialize (OK1 rules).
  destruct (command_mode t) eqn:M.
  - unfold bind at 1.
    pose proof (handle_command_input_ok (key i) (command i) _ OK1) as OK2.
    destruct (handle_command_input (key i) (command i) _) as [[[]|e] s2];
      cbn [snd] in *; try assumption.
    unfold bind. pose proof (clear_status_ok _ OK2) as OK3.
    destruct (clear_status s2) as [[[]|e] s3]; exact OK3.
  - destruct (lower_is (key i) "q"); [exact OK1|].
    destruct (browse_effect (key i) (height i) (command i) _ _ OK1 M)
      as (r & t1 & c1 & B & OK2 & D).
    unfold bind at 1. rewrite B.
    destruct r as [[]|e].
    + rewrite end_of_turn_eq. cbn [snd tui calls].
      destruct (command_mode t1) eqn:M1; [|exact OK2].
      destruct D as [D|[D _]]; [|congruence].
      destruct OK1 as (_ & _ & _ & S & _). destruct OK2 as (O & H & Bl & _ & C).
      cbn in *. rewrite <- D in S. session_parts; assumption.
    + cbn [snd]. destruct D as [D|[_ D]]; [|discriminate].
      destruct OK1 as (_ & _ & _ & S & _). destruct OK2 as (O & H & Bl & _ & C).
      cbn in *. rewrite <- D in S. session_parts; assumption.
Qed.

Lemma run_ok : forall inputs s, session_ok s -> session_ok (snd (run inputs s)).
Proof.
  induction inputs as [|i inputs IH]; intros s OK; [exact OK|].
  cbn [run]. unfold bind.
  pose proof (iteration_ok i s OK) as OK1.
  destruct (iteration i s) as [[[]|e] s1]; cbn [snd] in *; auto.
Qed.

Lemma start_ok : session_ok start.
Proof.
  unfold start. session_parts; cbn.
  - unfold offsets_ok. cbn. lia.
  - unfold cursor_ok. cbn. lia.
  - apply Forall_nil.
  - now left.
  - apply Forall_nil.
Qed.

(** X1.  Whatever the listings, the keys, the commands and the heights of
    the terminal, [scroll_offset] is never negative and never past
    [selected_index], which is therefore never negative either. *)
Theorem offsets_always_ordered : forall inputs,
  0 <= scroll_offset (tui (snd (run inputs start)))
  /\ scroll_offset (tui (snd (run inputs start)))
     <= selected_index (tui (snd (run inputs start))).
Proof. intros inputs. exact (proj1 (run_ok inputs start start_ok)). Qed.

(** X2.  At every point of a session the history cursor is within
    [0, len(command_history)], and no key of CommandEntry makes the recall
    of a command fail with [IndexError]. *)
Theorem recall_never_out_of_range : forall inputs k o,
  0 <= history_index (tui (snd (run inputs start)))
  /\ history_index (tui (snd (run inputs start)))
     <= Py.len (command_history (tui (snd (run inputs start))))
  /\ fst (handle_command_input k o (snd (run inputs start))) <> Raise IndexError.
Proof.
  intros inputs k o.
  destruct (run_ok inputs start start_ok) as (_ & (H0 & H1) & _).
  destruct (snd (run inputs start)) as [t c]. cbn [tui] in *.
  split; [assumption|]. split; [assumption|].
  unfold handle_command_input, bind at 1, get at 1. cbn [tui].
  destruct (code_is k KEY_ENTER).
  { unfold bind at 1. rewrite execute_ipfw_command_eq.
    destruct o as [rc out|f]; cbn; discriminate. }
  destruct (code_is k KEY_ESCAPE); [cbn; discriminate|].
  destruct (code_is k KEY_BACKSPACE); [cbn; discriminate|].
  destruct (code_is k KEY_UP && Py.truthy (command_history t)).
  { destruct (Z.ltb_spec 0 (history_index t)); [|cbn; discriminate].
    unfold bind at 1, bind at 1, update at 1, bind at 1, get at 1, bind at 1.
    cbn [tui calls command_history history_index set_history_index].
    destruct (getitem_in_range _ (command_history t) (history_index t - 1)
                (mkSys (set_history_index (history_index t - 1) t) c))
      as [x [_ G]]; [lia|].
    rewrite G. cbn. discriminate. }
  destruct (code_is k KEY_DOWN && Py.truthy (command_history t)).
  { destruct (Z.ltb_spec (history_index t) (Py.len (command_history t) - 1));
      [|cbn; discriminate].
    unfold bind at 1, bind at 1, update at 1, bind at 1, get at 1, bind at 1.
    cbn [tui calls command_history history_index set_history_index].
    destruct (getitem_in_range _ (command_history t) (history_index t + 1)
                (mkSys (set_history_index (history_index t + 1) t) c))
      as [x [_ G]]; [lia|].
    rewrite G. cbn. discriminate. }
  destruct (no_code k); cbn; discriminate.
Qed.

(** X3.  Every entry of the command history has a character that is not
    whitespace: blank commands are never recorded. *)
Theorem history_has_no_blank_entry : forall inputs,
  Forall (fun c => all_space c = false)
         (command_history (tui (snd (run inputs start)))).
Proof.
  intros inputs.
  exact (proj1 (proj2 (proj2 (run_ok inputs start start_ok)))).
Qed.

(** X4.  Every process that a session starts is [ipfw]: the first word of
    each argument vector handed to [subprocess] is "ipfw", whatever the
    operator types. *)
Theorem only_ipfw_is_run : forall inputs,
  Forall (fun argv => exists args, argv = Py.lit "ipfw" :: args)
         (calls (snd (run inputs start))).
Proof.
  intros inputs.
  pose proof (proj2 (proj2 (proj2 (proj2 (run_ok inputs start start_ok))))) as C.
  eapply Forall_impl; [|exact C].
  intros [|a args] H; unfold runs_ipfw in H; cbn in H; [discriminate|].
  exists args. now subst.
Qed.

(** X5.  The status message that a turn leaves for the next [draw_screen]
    is empty or one of the two messages of [handle_command_input]; the
    messages that the 'd' branch assigns ("Deleted rule ...", "Error
    deleting rule") are never among them. *)
Theorem status_left_by_a_turn : forall inputs,
  let m := status_message (tui (snd (run inputs start))) in
  m = [] \/ m = Py.lit "Command executed successfully"
  \/ m = Py.lit "Error executing command".
Proof.
  intros inputs.
  exact (proj1 (proj2 (proj2 (proj2 (run_ok inputs start start_ok))))).
Qed.

(** ** Exceptions that leave the loop *)

Lemma contained_ret : forall (A : Type) (a : A), contained (ret a).
Proof. intros A a s rc. discriminate. Qed.

Lemma contained_bind : forall (A B : Type) (m : M A) (k : A -> M B),
  contained m -> (forall a, contained (k a)) -> contained (bind m k).
Proof.
  intros A B m k Hm Hk s rc. unfold bind. specialize (Hm s rc).
  destruct (m s) as [[a|e] s1]; cbn in *; [apply Hk | congruence].
Qed.

Lemma contained_update : forall f, contained (update f).
Proof. intros f s rc. discriminate. Qed.

Lemma contained_get : contained get.
Proof. intros s rc. discriminate. Qed.

Lemma contained_getitem : forall (A : Type) (l : list A) (i : Z), contained (getitem l i).
Proof.
  intros A l i s rc. unfold getitem. cbv zeta.
  destruct (_ <? 0); [discriminate|].
  destruct (nth_error l _); discriminate.
Qed.

Lemma contained_if : forall (A : Type) (b : bool) (m1 m2 : M A),
  contained m1 -> contained m2 -> contained (if b then m1 else m2).
Proof. intros A b m1 m2 H1 H2. now destruct b. Qed.

Lemma contained_execute : forall cmd o, contained (execute_ipfw_command cmd o).
Proof.
  intros cmd o s rc. rewrite execute_ipfw_command_eq.
  destruct o; discriminate.
Qed.

Lemma contained_get_ipfw_rules : forall o, contained (get_ipfw_rules o).
Proof.
  intros o s rc. rewrite get_ipfw_rules_eq. cbn [fst].
  destruct o as [r out|f]; [|discriminate].
  destruct (r =? 0); [|discriminate]. destruct (Py.decode out); discriminate.
Qed.

Create HintDb contained.
#[local] Hint Resolve contained_ret contained_update contained_get contained_getitem
  contained_execute contained_get_ipfw_rules : contained.
#[local] Hint Extern 2 (contained (bind _ _)) =>
  apply contained_bind; [|intro] : contained.
#[local] Hint Extern 2 (contained (if _ then _ else _)) =>
  apply contained_if : contained.

Lemma contained_handle_command_input : forall k o, contained (handle_command_input k o).
Proof. intros k o. unfold handle_command_input. auto 30 with contained. Qed.

Lemma contained_browse : forall k h o, contained (browse k h o).
Proof. intros k h o. unfold browse. auto 30 with contained. Qed.

Lemma contained_iteration : forall i, contained (iteration i).
Proof.
  intros i. unfold iteration, clear_status.
  pose proof contained_handle_command_input. pose proof contained_browse.
  auto 30 with contained.
Qed.

(** X6.  [CalledProcessError] never leaves the loop: an [ipfw] that exits
    with a non-zero code, for the listing or for a command, does not end
    the session, whatever the state and the keys. *)
Theorem called_process_error_is_contained : forall inputs s rc,
  fst (run inputs s) <> Raise (CalledProcessError rc).
Proof.
  induction inputs as [|i inputs IH]; intros s rc; [discriminate|].
  cbn [run]. unfold bind. pose proof (contained_iteration i s rc) as H.
  destruct (iteration i s) as [[[]|e] s1]; cbn in *; [apply IH | discriminate | congruence].
Qed.

Lemma getitem_past_end : forall (A : Type) (l : list A) (i : Z) s,
  Py.len l <= i -> getitem l i s = (Raise IndexError, s).
Proof.
  intros A l i s H. unfold getitem, Py.len in *. cbv zeta.
  assert (E : (i <? 0) = false) by lia. rewrite !E.
  destruct (nth_error l (Z.to_nat i)) eqn:N; [|reflexivity].
  assert (nth_error l (Z.to_nat i) <> None) by congruence.
  apply nth_error_Some in H0. lia.
Qed.

(** X7.  The selection is not brought back into the list when the list
    gets shorter: with [selected_index] at or past the end of a rule list
    that is not empty, 'd' and 'e' raise [IndexError], which ends the
    session; no command is run and nothing but [current_rules] has
    changed. *)
Theorem stale_selection_raises : forall i s rules,
  command_mode (tui s) = false ->
  lists (listing i) rules ->
  rules <> [] ->
  Py.len rules <= selected_index (tui s) ->
  code (key i) = None ->
  lower_is (key i) "d" = true \/ lower_is (key i) "e" = true ->
  iteration i s =
  (Raise IndexError, mkSys (set_current_rules rules (tui s)) (calls s ++ [ipfw_list])).
Proof.
  intros i s rules C L N P K [D|E].
  - rewrite (iteration_browsing i s rules C L (lower_is_other _ _ "q" D eq_refl)).
    unfold bind at 1, browse, bind at 1, get at 1. cbn [tui current_rules set_current_rules
      selected_index].
    rewrite !(no_code_is _ _ K), D, (lower_is_other _ _ "a" D eq_refl).
    destruct rules as [|r0 rs]; [congruence|]. cbn [Py.truthy].
    unfold bind at 1. now rewrite getitem_past_end.
  - rewrite (iteration_browsing i s rules C L (lower_is_other _ _ "q" E eq_refl)).
    unfold bind at 1, browse, bind at 1, get at 1. cbn [tui current_rules set_current_rules
      selected_index].
    rewrite !(no_code_is _ _ K), E, (lower_is_other _ _ "a" E eq_refl),
      (lower_is_other _ _ "d" E eq_refl).
    destruct rules as [|r0 rs]; [congruence|]. cbn [Py.truthy andb].
    unfold bind at 1. now rewrite getitem_past_end.
Qed.

Lemma stale_selection_raises_witness :
  selected_index (tui second_rule_deleted) = 1
  /\ fst (iteration (mkInput (Exited 0 first_rule_output) (key_char "d") 24 ok)
            second_rule_deleted) = Raise IndexError.
Proof.
  split; [reflexivity|].
  refine (f_equal fst
            (stale_selection_raises
               (mkInput (Exited 0 first_rule_output) (key_char "d") 24 ok)
               second_rule_deleted
               [mkRule (Py.lit "00100") (Py.lit "allow ip from any to any via lo0")]
               eq_refl _ _ _ eq_refl (or_introl eq_refl))).
  - intros s. reflexivity.
  - discriminate.
  - vm_compute. discriminate.
Defined.

(** ** Keys that do nothing, and the key that quits *)

(** X8.  In Browsing, a key that is neither the up nor the down key nor
    one of the letters 'q', 'a', 'd', 'e' does nothing: the turn refreshes
    the rules and clears the status message, and that is all.  The '/' of
    the help line is such a key. *)
Theorem other_keys_do_nothing : forall i s rules,
  command_mode (tui s) = false ->
  lists (listing i) rules ->
  code_is (key i) KEY_UP = false -> code_is (key i) KEY_DOWN = false ->
  lower_is (key i) "q" = false -> lower_is (key i) "a" = false ->
  lower_is (key i) "d" = false -> lower_is (key i) "e" = false ->
  iteration i s =
  (Ok Next,
   mkSys (set_status_message [] (set_current_rules rules (tui s)))
         (calls s ++ [ipfw_list])).
Proof.
  intros i s rules C L U D Q A Dl E.
  rewrite (iteration_browsing i s rules C L Q).
  unfold bind at 1, browse, bind at 1, get at 1. rewrite U, D, A, Dl, E.
  cbn [andb]. unfold ret at 1. rewrite end_of_turn_eq.
  cbn [tui calls command_mode set_current_rules]. now rewrite C.
Qed.

Lemma other_keys_do_nothing_witness :
  iteration (mkInput (Exited 0 sample_output) (key_char "/") 24 ok) start =
  (Ok Next,
   mkSys (set_status_message [] (set_current_rules [sample_rule] (tui start)))
         (calls start ++ [ipfw_list])).
Proof.
  refine (other_keys_do_nothing
            (mkInput (Exited 0 sample_output) (key_char "/") 24 ok) start [sample_rule]
            eq_refl _ eq_refl eq_refl eq_refl eq_refl eq_refl eq_refl).
  intros s. reflexivity.
Defined.

(** X9.  In Browsing 'q' (or 'Q') ends the loop at once: after the listing
    of the turn nothing more is run, the keys that follow are not read,
    and the object is as the listing left it. *)
Theorem q_quits : forall i rest s rules,
  command_mode (tui s) = false ->
  lists (listing i) rules ->
  lower_is (key i) "q" = true ->
  run (i :: rest) s =
  (Ok Break, mkSys (set_current_rules rules (tui s)) (calls s ++ [ipfw_list])).
Proof.
  intros i rest s rules C L Q. cbn [run]. unfold bind at 1, iteration, bind at 1.
  rewrite (lists_eq _ _ _ L). unfold bind at 1, update at 1, bind at 1, get at 1.
  cbn [tui calls command_mode set_current_rules]. now rewrite C, Q.
Qed.

Lemma q_quits_witness :
  run [mkInput (Exited 0 sample_output) (key_char "Q") 24 ok;
       mkInput (Exited 0 sample_output) (key_char "d") 24 ok] start =
  (Ok Break, mkSys (set_current_rules [sample_rule] (tui start)) (calls start ++ [ipfw_list])).
Proof.
  refine (q_quits (mkInput (Exited 0 sample_output) (key_char "Q") 24 ok) _ start
            [sample_rule] eq_refl _ eq_refl).
  intros s. reflexivity.
Defined.

(** ** Typing a command *)

(** A key without a code, in CommandEntry: its text goes to the end of
    the buffer. *)
Lemma typed_turn : forall i s,
  command_mode (tui s) = true ->
  (exists rules, lists (listing i) rules) ->
  code (key i) = None ->
  exists rules,
    iteration i s =
    (Ok Next,
     mkSys (set_command_string (command_string (tui s) ++ ucs (key i))
              (set_current_rules rules (tui s)))
           (calls s ++ [ipfw_list])).
Proof.
  intros i s C [rules L] K. exists rules.
  rewrite (iteration_command i s rules C L).
  unfold bind at 1, handle_command_input, bind at 1, get at 1.
  rewrite !(no_code_is _ _ K). cbn [andb].
  unfold no_code. rewrite K.
  unfold bind at 1, update at 1, ret at 1.
  cbn [tui calls command_string set_current_rules].
  rewrite end_of_turn_eq. cbn [tui calls command_mode set_command_string set_current_rules].
  now rewrite C.
Qed.

(** X10.  In CommandEntry the keys without a key code are text, the
    letters 'q', 'a', 'd' and 'e' among them: a sequence of such keys
    appends their characters to the buffer in the order typed, runs
    nothing but the listing of each turn, and leaves the mode, the history,
    the history cursor and the status message as they were. *)
Theorem typing_appends : forall inputs s,
  command_mode (tui s) = true ->
  Forall (fun i => code (key i) = None /\ exists rules, lists (listing i) rules) inputs ->
  exists s',
    run inputs s = (Ok Next, s')
    /\ command_mode (tui s') = true
    /\ command_string (tui s') =
       command_string (tui s) ++ concat (List.map (fun i => ucs (key i)) inputs)
    /\ command_history (tui s') = command_history (tui s)
    /\ history_index (tui s') = history_index (tui s)
    /\ status_message (tui s') = status_message (tui s)
    /\ calls s' = calls s ++ repeat ipfw_list (List.length inputs).
Proof.
  induction inputs as [|i inputs IH]; intros s C F.
  - exists s. cbn. rewrite !app_nil_r. split; [reflexivity|]. split; [exact C|].
    repeat split; reflexivity.
  - inversion F as [|? ? [K L] F']; subst.
    destruct (typed_turn i s C L K) as [rules T].
    destruct (IH (mkSys (set_command_string (command_string (tui s) ++ ucs (key i))
                           (set_current_rules rules (tui s)))
                        (calls s ++ [ipfw_list])) C F')
      as (s' & R & C' & S' & H' & I' & M' & Cl').
    exists s'. split; [cbn [run]; unfold bind; rewrite T; exact R|].
    cbn [tui calls command_string command_history history_index status_message
         set_command_string set_current_rules] in *.
    split; [exact C'|]. split; [rewrite S'; cbn; now rewrite <- app_assoc|].
    split; [exact H'|]. split; [exact I'|]. split; [exact M'|].
    rewrite Cl'. cbn. now rewrite <- app_assoc.
Qed.

Lemma typing_appends_witness :
  exists s',
    run (type_keys (Exited 0 two_rules_output) "quit") entered = (Ok Next, s')
    /\ command_mode (tui s') = true
    /\ command_string (tui s') = Py.lit "quit"
    /\ command_history (tui s') = command_history (tui entered)
    /\ history_index (tui s') = history_index (tui entered)
    /\ status_message (tui s') = status_message (tui entered)
    /\ calls s' = calls entered ++ repeat ipfw_list 4.
Proof.
  refine (typing_appends (type_keys (Exited 0 two_rules_output) "quit") entered eq_refl _).
  unfold type_keys. cbn.
  repeat (apply Forall_cons;
          [split; [reflexivity | exists two_rules; intros s; reflexivity]|]).
  apply Forall_nil.
Defined.

(** Backspace in CommandEntry. *)
Lemma backspace_turn : forall i s rules,
  command_mode (tui s) = true ->
  lists (listing i) rules ->
  code_is (key i) KEY_BACKSPACE = true ->
  iteration i s =
  (Ok Next,
   mkSys (set_command_string (removelast (command_string (tui s)))
            (set_current_rules rules (tui s)))
         (calls s ++ [ipfw_list])).
Proof.
  intros i s rules C L K.
  rewrite (iteration_command i s rules C L).
  unfold bind at 1, handle_command_input, bind at 1, get at 1.
  rewrite (code_is_other _ _ KEY_ENTER K eq_refl),
    (code_is_other _ _ KEY_ESCAPE K eq_refl), K.
  unfold bind at 1, update at 1, ret at 1, Py.drop_last.
  cbn [tui calls command_string set_current_rules].
  rewrite end_of_turn_eq. cbn [tui calls command_mode set_command_string set_current_rules].
  now rewrite C.
Qed.

(** X11.  In CommandEntry, Backspace undoes a typed character: after a
    key of one character and then Backspace the buffer is what it was. *)
Theorem backspace_undoes_a_character : forall i1 i2 s c,
  command_mode (tui s) = true ->
  (exists rules, lists (listing i1) rules) ->
  (exists rules, lists (listing i2) rules) ->
  code (key i1) = None -> ucs (key i1) = [c] ->
  code_is (key i2) KEY_BACKSPACE = true ->
  exists s',
    run [i1; i2] s = (Ok Next, s')
    /\ command_mode (tui s') = true
    /\ command_string (tui s') = command_string (tui s).
Proof.
  intros i1 i2 s c C L1 [rules2 L2] K1 U K2.
  destruct (typed_turn i1 s C L1 K1) as [rules1 T1].
  cbn [run]. unfold bind at 1. rewrite T1. unfold bind at 1.
  match goal with |- context [iteration i2 ?s1] =>
    rewrite (backspace_turn i2 s1 rules2 C L2 K2) end.
  eexists. split; [reflexivity|]. cbn. split; [exact C|].
  rewrite U. apply removelast_last.
Qed.

Lemma backspace_undoes_a_character_witness :
  exists s',
    run [mkInput (Exited 0 two_rules_output) (key_char "x") 24 ok;
         mkInput (Exited 0 two_rules_output) key_backspace 24 ok] entered = (Ok Next, s')
    /\ command_mode (tui s') = true
    /\ command_string (tui s') = command_string (tui entered).
Proof.
  refine (backspace_undoes_a_character
            (mkInput (Exited 0 two_rules_output) (key_char "x") 24 ok)
            (mkInput (Exited 0 two_rules_output) key_backspace 24 ok)
            entered 120%N eq_refl _ _ eq_refl eq_refl eq_refl);
    exists two_rules; intros s; reflexivity.
Defined.

(** X12.  Escape in CommandEntry discards the buffer and returns to
    Browsing without running anything: the listing of the turn is the only
    invocation, and the history, the history cursor, the selection and
    the status message are as they were. *)
Theorem escape_discards_the_buffer : forall i s rules,
  command_mode (tui s) = true ->
  lists (listing i) rules ->
  code_is (key i) KEY_ESCAPE = true ->
  iteration i s =
  (Ok Next,
   mkSys (set_command_string [] (set_command_mode false (set_current_rules rules (tui s))))
         (calls s ++ [ipfw_list])).
Proof.
  intros i s rules C L K.
  rewrite (iteration_command i s rules C L).
  unfold bind at 1. now rewrite handle_escape.
Qed.

Lemma escape_discards_the_buffer_witness :
  iteration (mkInput (Exited 0 two_rules_output) key_escape 24 ok) entered =
  (Ok Next,
   mkSys (set_command_string []
            (set_command_mode false (set_current_rules two_rules (tui entered))))
         (calls entered ++ [ipfw_list])).
Proof.
  refine (escape_discards_the_buffer
            (mkInput (Exited 0 two_rules_output) key_escape 24 ok) entered two_rules
            eq_refl _ eq_refl).
  intros s. reflexivity.
Defined.

(** ** Running what was typed *)

Lemma run_app : forall l1 l2 s s1,
  run l1 s = (Ok Next, s1) -> run (l1 ++ l2) s = run l2 s1.
Proof.
  induction l1 as [|i l1 IH]; intros l2 s s1 R.
  - cbn in R. now injection R as <-.
  - cbn [run app] in *. unfold bind in *.
    destruct (iteration i s) as [[[]|e] s0]; try discriminate. now apply IH.
Qed.

(** Enter in CommandEntry, when the process can be started. *)
Lemma enter_turn : forall i s rules rc out,
  command_mode (tui s) = true ->
  lists (listing i) rules ->
  code_is (key i) KEY_ENTER = true ->
  command i = Exited rc out ->
  iteration i s =
  (Ok Next,
   mkSys (set_command_string []
            (set_command_mode false
               (set_status_message
                  (if rc =? 0 then Py.lit "Command executed successfully"
                   else Py.lit "Error executing command")
                  (after_command (command_string (tui s)) (Exited rc out)
                     (set_current_rules rules (tui s))))))
         (calls s ++ [ipfw_list; Py.lit "ipfw" :: Py.split (-1) (command_string (tui s))])).
Proof.
  intros i s rules rc out C L K O.
  rewrite (iteration_command i s rules C L), O.
  unfold bind at 1, handle_command_input, bind at 1, get at 1. rewrite K.
  unfold bind at 1. rewrite execute_ipfw_command_eq.
  unfold bind, update, ret, after_command. cbn [tui calls command_string set_current_rules].
  rewrite <- app_assoc. reflexivity.
Qed.

(** X13.  From Browsing, 'a', then a text typed key by key, then Enter run
    exactly one command: [ipfw] followed by the whitespace-separated words
    of the text.  The loop is back in Browsing with an empty buffer and the
    status of the command, and the text is at the end of the history when
    the command exited with zero and the text is not blank. *)
Theorem typed_command_is_run : forall a typed e s rc out,
  command_mode (tui s) = false ->
  code (key a) = None -> lower_is (key a) "a" = true ->
  code_is (key e) KEY_ENTER = true -> command e = Exited rc out ->
  Forall (fun i => code (key i) = None /\ exists rules, lists (listing i) rules)
         (a :: typed) ->
  (exists rules, lists (listing e) rules) ->
  let text := concat (List.map (fun i => ucs (key i)) typed) in
  exists s',
    run (a :: typed ++ [e]) s = (Ok Next, s')
    /\ calls s' =
       calls s ++ repeat ipfw_list (List.length typed + 2)
               ++ [Py.lit "ipfw" :: Py.split (-1) text]
    /\ command_mode (tui s') = false
    /\ command_string (tui s') = []
    /\ status_message (tui s') =
       (if rc =? 0 then Py.lit "Command executed successfully"
        else Py.lit "Error executing command")
    /\ command_history (tui s') =
       command_history (tui s)
       ++ (if (rc =? 0) && negb (all_space text) then [text] else []).
Proof.
  intros a typed e s rc out C Ka A Ke O F [rules_e Le] text.
  inversion F as [|? ? [_ [rules_a La]] Ft]; subst.
  destruct (a_enters_command_entry a s rules_a C La Ka A)
    as (s1 & T1 & C1 & S1 & H1 & _).
  destruct (typing_appends typed s1 C1 Ft) as (s2 & T2 & C2 & S2 & H2 & _ & _ & Cl2).
  assert (Cl1 : calls s1 = calls s ++ [ipfw_list]).
  { rewrite (iteration_browsing a s rules_a C La (lower_is_other _ _ "q" A eq_refl)) in T1.
    unfold bind at 1, browse, bind at 1, get at 1 in T1.
    rewrite !(no_code_is _ _ Ka), A in T1.
    unfold bind at 1, update at 1, bind at 1, update at 1, update at 1 in T1.
    rewrite end_of_turn_eq in T1. now injection T1 as <-. }
  eexists. split.
  - change (a :: typed ++ [e]) with ([a] ++ typed ++ [e]).
    rewrite (run_app [a] _ s s1).
    2:{ cbn [run]. unfold bind. now rewrite T1. }
    rewrite (run_app typed [e] s1 s2 T2).
    cbn [run]. unfold bind. rewrite (enter_turn e s2 rules_e rc out C2 Le Ke O).
    reflexivity.
  - rewrite S2, S1, Cl2, Cl1. fold text. cbn [tui calls app].
    split.
    { rewrite <- !app_assoc. f_equal.
      replace (List.length typed + 2)%nat with (S (List.length typed + 1)) by lia.
      cbn [repeat app]. f_equal. rewrite repeat_app. cbn [repeat].
      rewrite <- app_assoc. reflexivity. }
    cbn. repeat split.
    unfold after_command. cbn [succeeded]. rewrite truthy_strip.
    cbn [command_history set_current_rules]. rewrite H2, H1.
    destruct ((rc =? 0) && negb (all_space text));
      cbn [command_history set_command_history set_current_rules];
      rewrite ?H2, ?H1, ?app_nil_r; reflexivity.
Qed.

Lemma typed_command_is_run_witness :
  exists s',
    run add_session start = (Ok Next, s')
    /\ calls s' =
       calls start ++ repeat ipfw_list 33
       ++ [[Py.lit "ipfw"; Py.lit "add"; Py.lit "200"; Py.lit "deny"; Py.lit "ip";
            Py.lit "from"; Py.lit "any"; Py.lit "to"; Py.lit "any"]]
    /\ command_mode (tui s') = false
    /\ command_string (tui s') = []
    /\ status_message (tui s') = Py.lit "Command executed successfully"
    /\ command_history (tui s') = command_history (tui start) ++ [Py.lit typed_command].
Proof.
  refine (typed_command_is_run
            (mkInput (Exited 0 two_rules_output) (key_char "a") 24 ok)
            (type_keys (Exited 0 two_rules_output) typed_command)
            (mkInput (Exited 0 two_rules_output) key_enter 24 ok)
            start 0 [] eq_refl eq_refl eq_refl eq_refl eq_refl _ _).
  - unfold type_keys. cbn.
    repeat (apply Forall_cons;
            [split; [reflexivity | exists two_rules; intros s; reflexivity]|]).
    apply Forall_nil.
  - exists two_rules. intros s. reflexivity.
Defined.

(** ** The rules that a listing gives *)

Lemma In_lstrip : forall x s, In x (Py.lstrip s) -> In x s.
Proof.
  induction s as [|c s IH]; simpl; [trivial|].
  destruct (Py.isspace c); simpl; auto.
Qed.

Lemma In_skip_token : forall x s, In x (skip_token s) -> In x s.
Proof.
  induction s as [|c s IH]; simpl; [trivial|].
  destruct (Py.isspace c); simpl; auto.
Qed.

(** No piece of [s.split(sep)] contains the separator. *)
Lemma split_on_no_sep : forall sep s piece,
  In piece (Py.split_on sep s) -> ~ In sep piece.
Proof.
  intros sep. induction s as [|c s IH]; simpl; intros piece H.
  - destruct H as [<-|[]]. auto.
  - destruct (N.eqb_spec c sep).
    + destruct H as [<-|H]; auto.
    + destruct (Py.split_on sep s) as [|p ps].
      * destruct H as [<-|[]]. simpl. tauto.
      * destruct H as [<-|H].
        -- simpl. intros [E|I]; [congruence|]. apply (IH p); simpl; auto.
        -- apply IH. simpl. auto.
Qed.

(** The rule of a line that is free of line ends is well formed. *)
Lemma rules_of_line_well_formed : forall line r,
  ~ In 10%N line -> In r (rules_of_line line) -> well_formed r.
Proof.
  intros line r NL I. rewrite rules_of_line_eq in I.
  destruct (remainder line) as [|c t] eqn:R; [destruct I|].
  destruct I as [<-|[]]. unfold well_formed. cbn [number rule].
  assert (NE : remainder line <> []) by congruence.
  destruct (line_shape line NE) as (lead & sep & _ & _ & NS & _ & _ & HD).
  rewrite R in HD.
  split; [|split; [exact NS|split; [exact HD|]]].
  - unfold remainder in R.
    destruct (Py.lstrip line) as [|c0 r0] eqn:L; [discriminate|].
    pose proof (lstrip_head _ _ _ L) as E. simpl. now rewrite E.
  - intros I. apply NL. rewrite <- R in I. unfold remainder in I.
    now apply In_lstrip, In_skip_token, In_lstrip in I.
Qed.

Lemma get_ipfw_rules_well_formed : forall o s rules,
  fst (get_ipfw_rules o s) = Ok rules -> Forall well_formed rules.
Proof.
  intros o s rules H. rewrite get_ipfw_rules_eq in H. cbn [fst] in H.
  destruct o as [rc out|f]; [|discriminate].
  destruct (rc =? 0); [|injection H as <-; constructor].
  destruct (Py.decode out) as [output|]; [|discriminate].
  injection H as <-. apply Forall_forall. intros r I.
  apply in_flat_map in I. destruct I as (line & IL & IR).
  apply (rules_of_line_well_formed line); [|exact IR].
  now apply (split_on_no_sep 10%N output).
Qed.

(** X14.  Every rule that [get_ipfw_rules] returns has a number that is
    not empty and free of whitespace, and a text that begins with a
    character that is not whitespace and contains no line end. *)
Theorem listed_rules_are_well_formed : forall o s rules,
  fst (get_ipfw_rules o s) = Ok rules -> Forall well_formed rules.
Proof. exact get_ipfw_rules_well_formed. Qed.

Lemma listed_rules_are_well_formed_witness : Forall well_formed two_rules.
Proof.
  exact (listed_rules_are_well_formed (Exited 0 two_rules_output) start two_rules eq_refl).
Defined.

(** ** The words of a command *)

(** A word is its own first token. *)
Lemma token_whole : forall w rest,
  no_space w = true ->
  first_token (w ++ 32%N :: rest) = w /\ skip_token (w ++ 32%N :: rest) = 32%N :: rest.
Proof.
  induction w as [|c w IH]; intros rest H; simpl in *.
  - now split.
  - apply andb_true_iff in H. destruct H as [H1 H2].
    apply negb_true_iff in H1. rewrite H1.
    destruct (IH rest H2) as [E1 E2]. now rewrite E1, E2.
Qed.

Lemma token_alone : forall w,
  no_space w = true -> first_token w = w /\ skip_token w = [].
Proof.
  induction w as [|c w IH]; intros H; simpl in *.
  - now split.
  - apply andb_true_iff in H. destruct H as [H1 H2].
    apply negb_true_iff in H1. rewrite H1.
    destruct (IH H2) as [E1 E2]. now rewrite E1, E2.
Qed.

Lemma lstrip_word : forall w rest,
  w <> [] -> no_space w = true -> Py.lstrip (w ++ rest) = w ++ rest.
Proof.
  intros [|c w] rest N H; [congruence|]. simpl in *.
  apply andb_true_iff in H. destruct H as [H _].
  apply negb_true_iff in H. now rewrite H.
Qed.

(** The scan splits a word off the front of a string. *)
Lemma split_scan_word : forall w rest k,
  w <> [] -> no_space w = true -> 0 < k ->
  Py.split_scan k None (w ++ 32%N :: rest) = w :: Py.split_scan (k - 1) None rest.
Proof.
  intros w rest k N H K. rewrite split_scan_between, (lstrip_word w _ N H).
  destruct (w ++ 32%N :: rest) as [|c r] eqn:E; [now destruct w|].
  rewrite <- E. destruct (token_whole w rest H) as [E1 E2]. rewrite E1, E2.
  assert (P : (0 <? k) = true) by lia. rewrite P. reflexivity.
Qed.

(** A word alone is split into itself. *)
Lemma split_scan_last_word : forall w k,
  w <> [] -> no_space w = true -> 0 < k -> Py.split_scan k None w = [w].
Proof.
  intros w k N H K. rewrite split_scan_between.
  rewrite <- (app_nil_r w) at 1. rewrite (lstrip_word w [] N H), app_nil_r.
  destruct w as [|c r] eqn:E; [congruence|].
  rewrite <- E in *. destruct (token_alone w H) as [E1 E2]. rewrite E1, E2.
  assert (P : (0 <? k) = true) by lia. now rewrite P.
Qed.

(** Splits that are not used up make no difference. *)
Lemma split_scan_enough : forall s k k' tok,
  Py.len s <= k -> Py.len s <= k' -> Py.split_scan k tok s = Py.split_scan k' tok s.
Proof.
  unfold Py.len. induction s as [|c s IH]; intros k k' tok H H'; [reflexivity|].
  cbn [List.length] in *. simpl.
  destruct tok as [t|]; destruct (Py.isspace c).
  - f_equal. apply IH; lia.
  - apply IH; lia.
  - apply IH; lia.
  - assert (P : (0 <? k) = true) by lia. assert (P' : (0 <? k') = true) by lia.
    rewrite P, P'. apply IH; lia.
Qed.

Lemma lists_well_formed : forall o rules, lists o rules -> Forall well_formed rules.
Proof. intros o rules L. exact (get_ipfw_rules_well_formed o start rules (L start)). Qed.

Lemma nth_error_Forall : forall (A : Type) (P : A -> Prop) (l : list A) (n : nat) (x : A),
  Forall P l -> nth_error l n = Some x -> P x.
Proof.
  intros A P l n x F N. rewrite Forall_forall in F. apply F.
  eapply nth_error_In; eauto.
Qed.

(** The words of "delete <number>" for a number that is one word. *)
Lemma delete_words : forall n,
  n <> [] -> no_space n = true ->
  Py.split (-1) (Py.lit "delete " ++ n) = [Py.lit "delete"; n].
Proof.
  intros n N H. unfold Py.split. cbn [Z.ltb Z.compare].
  change (Py.lit "delete " ++ n) with (Py.lit "delete" ++ 32%N :: n).
  rewrite split_scan_word; [|discriminate | reflexivity | reflexivity].
  f_equal. apply split_scan_last_word; [assumption | assumption | reflexivity].
Qed.

(** X15.  On a rule list that [get_ipfw_rules] returned, 'd' on a valid
    selection starts [ipfw] with exactly two arguments, "delete" and the
    number of the selected rule. *)
Theorem delete_runs_three_words : forall i s rules,
  command_mode (tui s) = false ->
  lists (listing i) rules ->
  0 <= selected_index (tui s) < Py.len rules ->
  code (key i) = None -> lower_is (key i) "d" = true ->
  exists r,
    nth_error rules (Z.to_nat (selected_index (tui s))) = Some r
    /\ calls (snd (iteration i s)) =
       calls s ++ [ipfw_list; [Py.lit "ipfw"; Py.lit "delete"; number r]].
Proof.
  intros i s rules C L R K D.
  rewrite (iteration_browsing i s rules C L (lower_is_other _ _ "q" D eq_refl)).
  destruct (browse_d (key i) (height i) (command i)
              (set_current_rules rules (tui s)) (calls s ++ [ipfw_list]) K D R)
    as [r [N B]].
  cbn [current_rules selected_index set_current_rules] in N.
  destruct (nth_error_Forall _ _ _ _ _ (lists_well_formed _ _ L) N) as (NE & NS & _).
  exists r. split; [exact N|].
  unfold bind at 1. rewrite B, (delete_words _ NE NS).
  destruct (command i) as [rc out|f]; [rewrite end_of_turn_eq|];
    cbn [snd calls]; now rewrite <- app_assoc.
Qed.

Lemma delete_runs_three_words_witness :
  exists r,
    nth_error two_rules 1 = Some r
    /\ calls (snd (iteration (mkInput (Exited 0 two_rules_output) (key_char "d") 24 failed)
                     (snd (run [mkInput (Exited 0 two_rules_output) key_down 24 ok] start))))
       = [ipfw_list] ++ [ipfw_list; [Py.lit "ipfw"; Py.lit "delete"; number r]].
Proof.
  refine (delete_runs_three_words
            (mkInput (Exited 0 two_rules_output) (key_char "d") 24 failed)
            (snd (run [mkInput (Exited 0 two_rules_output) key_down 24 ok] start))
            two_rules eq_refl _ _ eq_refl eq_refl).
  - intros s. reflexivity.
  - vm_compute. split; [discriminate | reflexivity].
Defined.

(** The words of "delete <number> && add <text>". *)
Lemma edit_words : forall n text,
  n <> [] -> no_space n = true -> Py.len text < Py.PY_SSIZE_T_MAX - 4 ->
  Py.split (-1) (Py.lit "delete " ++ n ++ Py.lit " && add " ++ text) =
  [Py.lit "delete"; n; Py.lit "&&"; Py.lit "add"] ++ tokens text.
Proof.
  intros n text N H B. unfold tokens, Py.split. cbn [Z.ltb Z.compare].
  change (Py.lit "delete " ++ n ++ Py.lit " && add " ++ text)
    with (Py.lit "delete" ++ 32%N :: n ++ 32%N :: Py.lit "&&" ++ 32%N
            :: Py.lit "add" ++ 32%N :: text).
  unfold Py.PY_SSIZE_T_MAX in *.
  rewrite split_scan_word; [|discriminate | reflexivity | reflexivity].
  rewrite split_scan_word; [|assumption | assumption | reflexivity].
  rewrite split_scan_word; [|discriminate | reflexivity | reflexivity].
  rewrite split_scan_word; [|discriminate | reflexivity | reflexivity].
  cbn [app]. do 4 f_equal. apply split_scan_enough; lia.
Qed.

(** 'e' in Browsing, on a valid selection. *)
Lemma e_turn : forall i s rules,
  command_mode (tui s) = false ->
  lists (listing i) rules ->
  0 <= selected_index (tui s) < Py.len rules ->
  code (key i) = None -> lower_is (key i) "e" = true ->
  exists r,
    nth_error rules (Z.to_nat (selected_index (tui s))) = Some r
    /\ iteration i s =
       (Ok Next,
        mkSys (set_history_index (Py.len (command_history (tui s)))
                 (set_command_string
                    (Py.lit "delete " ++ number r ++ Py.lit " && add " ++ rule r)
                    (set_command_mode true (set_current_rules rules (tui s)))))
              (calls s ++ [ipfw_list])).
Proof.
  intros i s rules C L R K E.
  rewrite (iteration_browsing i s rules C L (lower_is_other _ _ "q" E eq_refl)).
  set (s1 := mkSys (set_current_rules rules (tui s)) (calls s ++ [ipfw_list])).
  destruct (getitem_in_range _ rules (selected_index (tui s)) s1 R) as [r [N G]].
  assert (T : Py.truthy rules = true).
  { destruct rules; [unfold Py.len in R; simpl in R; lia | reflexivity]. }
  exists r. split; [exact N|].
  unfold bind at 1, browse, bind at 1, get at 1.
  cbn [tui s1 current_rules set_current_rules selected_index].
  rewrite !(no_code_is _ _ K), E, T.
  rewrite (lower_is_other _ _ "a" E eq_refl), (lower_is_other _ _ "d" E eq_refl).
  cbn [andb]. unfold bind at 1. fold s1. rewrite G.
  unfold bind at 1, update at 1, bind at 1, update at 1, bind at 1, get at 1, update at 1.
  cbn [tui calls s1]. rewrite end_of_turn_eq. reflexivity.
Qed.

(** X16.  'e' on a listed rule and then Enter run one command, not two:
    [subprocess] gets a single argument vector in which "&&" is an
    argument of [ipfw] like the others, namely "delete", the number, "&&",
    "add" and the words of the rule text. *)
Theorem edit_then_enter_runs_one_command : forall e n s rules rc out,
  command_mode (tui s) = false ->
  lists (listing e) rules ->
  (exists rules', lists (listing n) rules') ->
  0 <= selected_index (tui s) < Py.len rules ->
  Forall (fun r => Py.len (rule r) < Py.PY_SSIZE_T_MAX - 4) rules ->
  code (key e) = None -> lower_is (key e) "e" = true ->
  code_is (key n) KEY_ENTER = true -> command n = Exited rc out ->
  exists r,
    nth_error rules (Z.to_nat (selected_index (tui s))) = Some r
    /\ calls (snd (run [e; n] s)) =
       calls s ++ [ipfw_list; ipfw_list;
                   [Py.lit "ipfw"; Py.lit "delete"; number r; Py.lit "&&"; Py.lit "add"]
                   ++ tokens (rule r)].
Proof.
  intros e n s rules rc out C L [rules' L'] R B Ke E Kn O.
  destruct (e_turn e s rules C L R Ke E) as (r & N & T).
  destruct (nth_error_Forall _ _ _ _ _ (lists_well_formed _ _ L) N) as (NE & NS & _).
  pose proof (nth_error_Forall _ _ _ _ _ B N) as Br. cbv beta in Br.
  exists r. split; [exact N|].
  cbn [run]. unfold bind at 1. rewrite T. unfold bind at 1.
  match goal with |- context [iteration n ?s1] =>
    rewrite (enter_turn n s1 rules' rc out eq_refl L' Kn O) end.
  cbn [snd calls tui command_string set_history_index set_command_string].
  rewrite (edit_words _ _ NE NS Br), <- app_assoc. reflexivity.
Qed.

Lemma edit_then_enter_runs_one_command_witness :
  exists r,
    nth_error [sample_rule] 0 = Some r
    /\ calls (snd (run [mkInput (Exited 0 sample_output) (key_char "e") 24 ok;
                        mkInput (Exited 0 sample_output) key_enter 24 failed] start))
       = [] ++ [ipfw_list; ipfw_list;
                [Py.lit "ipfw"; Py.lit "delete"; number r; Py.lit "&&"; Py.lit "add"]
                ++ tokens (rule r)].
Proof.
  refine (edit_then_enter_runs_one_command
            (mkInput (Exited 0 sample_output) (key_char "e") 24 ok)
            (mkInput (Exited 0 sample_output) key_enter 24 failed)
            start [sample_rule] 1 [] eq_refl _ _ _ _ eq_refl eq_refl eq_refl eq_refl).
  - intros s. reflexivity.
  - exists [sample_rule]. intros s. reflexivity.
  - vm_compute. split; [discriminate | reflexivity].
  - repeat constructor.
Defined.

(** ** Recalling a command *)

(** The up and down keys of CommandEntry: the turn, with the cursor and
    the buffer that result. *)
Lemma recall_turn : forall i s rules,
  command_mode (tui s) = true ->
  lists (listing i) rules ->
  is_up_down (key i) = true ->
  0 <= history_index (tui s) <= Py.len (command_history (tui s)) ->
  let idx := cursor_move (Py.len (command_history (tui s))) (history_index (tui s)) (key i) in
  exists buffer,
    iteration i s =
    (Ok Next,
     mkSys (set_command_string buffer
              (set_history_index idx (set_current_rules rules (tui s))))
           (calls s ++ [ipfw_list]))
    /\ (idx = history_index (tui s) -> buffer = command_string (tui s))
    /\ (idx <> history_index (tui s) ->
        nth_error (command_history (tui s)) (Z.to_nat idx) = Some buffer).
Proof.
  intros i [t c] rules C L K [H0 H1]. cbv zeta. cbn [tui calls] in *.
  rewrite (iteration_command i (mkSys t c) rules C L). cbn [tui calls].
  unfold is_up_down in K. unfold cursor_move.
  unfold bind at 1, handle_command_input, bind at 1, get at 1.
  cbn [tui calls command_history history_index command_string set_current_rules].
  assert (Stay : exists buffer,
             (clear_status;; ret Next)
               (mkSys (set_current_rules rules t) (c ++ [ipfw_list])) =
             (Ok Next,
              mkSys (set_command_string buffer
                       (set_history_index (history_index t) (set_current_rules rules t)))
                    (c ++ [ipfw_list]))
             /\ (history_index t = history_index t -> buffer = command_string t)
             /\ (history_index t <> history_index t ->
                 nth_error (command_history t) (Z.to_nat (history_index t)) = Some buffer)).
  { exists (command_string t). rewrite end_of_turn_eq.
    cbn [tui calls command_mode set_current_rules]. rewrite C.
    split; [reflexivity|]. split; [reflexivity | congruence]. }
  destruct (code_is (key i) KEY_UP) eqn:U.
  - rewrite (code_is_other _ _ KEY_ENTER U eq_refl),
      (code_is_other _ _ KEY_ESCAPE U eq_refl),
      (code_is_other _ _ KEY_BACKSPACE U eq_refl),
      (code_is_other _ _ KEY_DOWN U eq_refl), (code_is_some _ _ U).
    destruct (command_history t) as [|h0 hs] eqn:Hs; cbn [Py.truthy andb].
    + unfold Py.len in *. cbn in H1.
      replace (Z.max 0 (history_index t - 1)) with (history_index t) by lia.
      exact Stay.
    + destruct (Z.ltb_spec 0 (history_index t)).
      * replace (Z.max 0 (history_index t - 1)) with (history_index t - 1) by lia.
        unfold bind at 1, bind at 1, update at 1, bind at 1, get at 1.
        cbn [tui calls command_history history_index set_history_index set_current_rules].
        rewrite Hs.
        destruct (getitem_in_range _ (h0 :: hs) (history_index t - 1)
                    (mkSys (set_history_index (history_index t - 1)
                              (set_current_rules rules t)) (c ++ [ipfw_list])))
          as [x [N G]]; [lia|].
        unfold bind at 1. rewrite G. unfold update at 1, ret at 1.
        cbn [tui calls]. unfold ret at 1. rewrite end_of_turn_eq.
        cbn [tui calls command_mode set_command_string set_history_index
             set_current_rules]. rewrite C.
        exists x. split; [reflexivity|]. split; [lia | intros _; exact N].
      * replace (Z.max 0 (history_index t - 1)) with (history_index t) by lia.
        unfold ret at 1, bind at 1, ret at 1. exact Stay.
  - simpl in K.
    rewrite (code_is_other _ _ KEY_ENTER K eq_refl),
      (code_is_other _ _ KEY_ESCAPE K eq_refl),
      (code_is_other _ _ KEY_BACKSPACE K eq_refl), K, (code_is_some _ _ K).
    destruct (command_history t) as [|h0 hs] eqn:Hs; cbn [Py.truthy andb].
    + unfold Py.len in *. cbn in H1. cbn [List.length Z.of_nat].
      assert (E : (history_index t <? 0 - 1) = false) by lia. rewrite E.
      exact Stay.
    + destruct (Z.ltb_spec (history_index t) (Py.len (h0 :: hs) - 1)).
      * unfold bind at 1, bind at 1, update at 1, bind at 1, get at 1.
        cbn [tui calls command_history history_index set_history_index set_current_rules].
        rewrite Hs.
        destruct (getitem_in_range _ (h0 :: hs) (history_index t + 1)
                    (mkSys (set_history_index (history_index t + 1)
                              (set_current_rules rules t)) (c ++ [ipfw_list])))
          as [x [N G]]; [lia|].
        unfold bind at 1. rewrite G. unfold update at 1, ret at 1.
        cbn [tui calls]. unfold ret at 1. rewrite end_of_turn_eq.
        cbn [tui calls command_mode set_command_string set_history_index
             set_current_rules]. rewrite C.
        exists x. split; [reflexivity|]. split; [lia | intros _; exact N].
      * unfold ret at 1, bind at 1, ret at 1. exact Stay.
Qed.

(** X17.  In CommandEntry an up or down key that moves the history cursor
    puts the history entry under the cursor into the buffer; a key that
    cannot move it (up at the first entry, down at the last entry or
    beyond, any of the two with an empty history) leaves the buffer as it
    is. *)
Theorem recall_shows_entry_at_cursor : forall i s rules,
  command_mode (tui s) = true ->
  lists (listing i) rules ->
  is_up_down (key i) = true ->
  0 <= history_index (tui s) <= Py.len (command_history (tui s)) ->
  exists s',
    iteration i s = (Ok Next, s')
    /\ history_index (tui s') =
       cursor_move (Py.len (command_history (tui s))) (history_index (tui s)) (key i)
    /\ (history_index (tui s') = history_index (tui s) ->
        command_string (tui s') = command_string (tui s))
    /\ (history_index (tui s') <> history_index (tui s) ->
        nth_error (command_history (tui s)) (Z.to_nat (history_index (tui s')))
        = Some (command_string (tui s'))).
Proof.
  intros i s rules C L K H.
  destruct (recall_turn i s rules C L K H) as (buffer & T & Same & Moved).
  eexists. split; [exact T|]. cbn. split; [reflexivity|]. split; assumption.
Qed.

Lemma recall_shows_entry_at_cursor_witness :
  exists s',
    iteration (mkInput (Exited 0 two_rules_output) key_up 24 ok) entered = (Ok Next, s')
    /\ history_index (tui s') = 1
    /\ (history_index (tui s') = history_index (tui entered) ->
        command_string (tui s') = command_string (tui entered))
    /\ (history_index (tui s') <> history_index (tui entered) ->
        nth_error (command_history (tui entered)) (Z.to_nat (history_index (tui s')))
        = Some (command_string (tui s'))).
Proof.
  refine (recall_shows_entry_at_cursor
            (mkInput (Exited 0 two_rules_output) key_up 24 ok) entered two_rules
            eq_refl _ eq_refl _).
  - intros s. reflexivity.
  - vm_compute. split; discriminate.
Defined.

(** X18.  A command that was run with success can be had back: after
    Enter on a buffer that is not blank, for which [ipfw] exits with zero,
    then 'a' and the up key, the buffer holds that command again. *)
Theorem last_command_is_recalled : forall e a u s out,
  command_mode (tui s) = true ->
  all_space (command_string (tui s)) = false ->
  code_is (key e) KEY_ENTER = true -> command e = Exited 0 out ->
  code (key a) = None -> lower_is (key a) "a" = true ->
  code_is (key u) KEY_UP = true ->
  Forall (fun i => exists rules, lists (listing i) rules) [e; a; u] ->
  exists s',
    run [e; a; u] s = (Ok Next, s')
    /\ command_mode (tui s') = true
    /\ command_string (tui s') = command_string (tui s)
    /\ command_history (tui s') = command_history (tui s) ++ [command_string (tui s)].
Proof.
  intros e a u s out C B Ke O Ka A Ku F.
  inversion F as [|? ? [re Le] F1]; subst.
  inversion F1 as [|? ? [ra La] F2]; subst.
  inversion F2 as [|? ? [ru Lu] _]; subst.
  pose proof (enter_turn e s re 0 out C Le Ke O) as T1.
  set (s1 := mkSys _ _) in T1.
  assert (H1 : command_history (tui s1) = command_history (tui s) ++ [command_string (tui s)]).
  { subst s1. unfold after_command. cbn [succeeded Z.eqb]. rewrite truthy_strip, B.
    reflexivity. }
  destruct (a_enters_command_entry a s1 ra eq_refl La Ka A)
    as (s2 & T2 & C2 & _ & H2 & I2).
  assert (UD : is_up_down (key u) = true) by (unfold is_up_down; now rewrite Ku).
  assert (R2 : 0 <= history_index (tui s2) <= Py.len (command_history (tui s2))).
  { rewrite I2. unfold Py.len. lia. }
  destruct (recall_turn u s2 ru C2 Lu UD R2) as (buffer & T3 & _ & Moved).
  unfold cursor_move in T3, Moved. rewrite Ku in T3, Moved.
  assert (P : 0 < Py.len (command_history (tui s2))).
  { rewrite H2, H1. unfold Py.len. rewrite length_app. simpl. lia. }
  rewrite I2 in Moved, T3.
  replace (Z.max 0 (Py.len (command_history (tui s2)) - 1))
    with (Py.len (command_history (tui s2)) - 1) in * by lia.
  specialize (Moved ltac:(lia)).
  assert (E : buffer = command_string (tui s)).
  { rewrite H2, H1 in Moved. unfold Py.len in Moved. rewrite length_app in Moved.
    cbn [List.length] in Moved.
    replace (Z.to_nat (Z.of_nat (List.length (command_history (tui s)) + 1) - 1))
      with (List.length (command_history (tui s))) in Moved by lia.
    rewrite nth_error_app2 in Moved by lia.
    rewrite Nat.sub_diag in Moved. cbn in Moved. congruence. }
  eexists. split.
  - cbn [run]. unfold bind. rewrite T1, T2, T3. reflexivity.
  - cbn [tui command_mode command_string command_history set_command_string
         set_history_index set_current_rules].
    split; [exact C2|]. split; [exact E|]. now rewrite H2, H1.
Qed.

Lemma last_command_is_recalled_witness :
  let s := mkSys (set_command_string (Py.lit "add 300 deny ip from any to any")
                    (tui entered)) [] in
  exists s',
    run [mkInput (Exited 0 two_rules_output) key_enter 24 ok;
         mkInput (Exited 0 two_rules_output) (key_char "a") 24 ok;
         mkInput (Exited 0 two_rules_output) key_up 24 ok] s = (Ok Next, s')
    /\ command_mode (tui s') = true
    /\ command_string (tui s') = command_string (tui s)
    /\ command_history (tui s') = command_history (tui s) ++ [command_string (tui s)].
Proof.
  cbv zeta.
  refine (last_command_is_recalled
            (mkInput (Exited 0 two_rules_output) key_enter 24 ok)
            (mkInput (Exited 0 two_rules_output) (key_char "a") 24 ok)
            (mkInput (Exited 0 two_rules_output) key_up 24 ok)
            (mkSys (set_command_string (Py.lit "add 300 deny ip from any to any")
                      (tui entered)) [])
            [] eq_refl eq_refl eq_refl eq_refl eq_refl eq_refl eq_refl _).
  repeat (apply Forall_cons; [exists two_rules; intros s; reflexivity|]).
  apply Forall_nil.
Defined.

(** ** The selection stays on the screen *)

Lemma browse_arrow_visible : forall k h o t c,
  code_is k KEY_UP || code_is k KEY_DOWN = true ->
  7 <= h ->
  selection_ok (Py.len (current_rules t)) t ->
  selection_visible h t ->
  exists t',
    browse k h o (mkSys t c) = (Ok tt, mkSys t' c)
    /\ command_mode t' = command_mode t
    /\ selection_ok (Py.len (current_rules t)) t'
    /\ selection_visible h t'.
Proof.
  intros k h o t c K H (S0 & S1 & S2) (V0 & V1).
  unfold browse, bind at 1, get at 1. cbn [tui].
  destruct (code_is k KEY_UP) eqn:U.
  - destruct (Z.ltb_spec 0 (selected_index t)).
    + unfold bind at 1, update at 1, bind at 1, get at 1.
      cbn [tui calls selected_index scroll_offset set_selected_index].
      destruct (Z.ltb_spec (selected_index t - 1) (scroll_offset t));
        eexists; (split; [reflexivity|]);
        unfold selection_ok, selection_visible; cbn; repeat split; lia.
    + exists t. unfold selection_ok, selection_visible. repeat split; trivial.
  - simpl in K. rewrite K.
    destruct (Z.ltb_spec (selected_index t) (Py.len (current_rules t) - 1)).
    + unfold bind at 1, update at 1, bind at 1, get at 1.
      cbn [tui calls selected_index scroll_offset set_selected_index].
      destruct (Z.leb_spec (scroll_offset t + (h - 6)) (selected_index t + 1));
        eexists; (split; [reflexivity|]);
        unfold selection_ok, selection_visible; cbn; repeat split; lia.
    + exists t. unfold selection_ok, selection_visible. repeat split; trivial.
Qed.

Lemma arrow_turn_visible : forall i s rules,
  command_mode (tui s) = false ->
  lists (listing i) rules ->
  is_arrow (key i) = true ->
  7 <= height i ->
  selection_ok (Py.len rules) (tui s) ->
  selection_visible (height i) (tui s) ->
  exists s',
    iteration i s = (Ok Next, s')
    /\ command_mode (tui s') = false
    /\ selection_ok (Py.len rules) (tui s')
    /\ selection_visible (height i) (tui s').
Proof.
  intros i s rules C L A H S V.
  rewrite (iteration_browsing i s rules C L (arrow_not_q _ A)).
  destruct (code_is (key i) KEY_UP || code_is (key i) KEY_DOWN) eqn:K.
  - destruct (browse_arrow_visible (key i) (height i) (command i)
                (set_current_rules rules (tui s)) (calls s ++ [ipfw_list]) K H S V)
      as (t' & B & C' & S' & V').
    cbn [command_mode current_rules set_current_rules] in *.
    unfold bind at 1. rewrite B, end_of_turn_eq. cbn [tui calls].
    rewrite C', C. eexists. split; [reflexivity|]. cbn [tui].
    split; [cbn; congruence|]. split; [exact S' | exact V'].
  - unfold bind at 1. rewrite (browse_left_right _ _ _ _ A K), end_of_turn_eq.
    cbn [tui calls command_mode set_current_rules]. rewrite C.
    eexists. split; [reflexivity|]. cbn [tui].
    split; [exact C|]. split; [exact S | exact V].
Qed.

Lemma arrow_run_visible : forall rules h inputs s,
  command_mode (tui s) = false ->
  7 <= h ->
  selection_ok (Py.len rules) (tui s) ->
  selection_visible h (tui s) ->
  Forall (fun i => is_arrow (key i) = true /\ lists (listing i) rules /\ height i = h)
         inputs ->
  exists s',
    run inputs s = (Ok Next, s')
    /\ selection_ok (Py.len rules) (tui s')
    /\ selection_visible h (tui s').
Proof.
  intros rules h inputs. induction inputs as [|i inputs IH]; intros s C H S V F.
  - exists s. split; [reflexivity|]. split; assumption.
  - inversion F as [|? ? (A & L & E) F']; subst.
    destruct (arrow_turn_visible i s rules C L A H S V) as (s1 & T & C1 & S1 & V1).
    destruct (IH s1 C1 H S1 V1 F') as (s' & R & S' & V').
    exists s'. split; [|now split].
    cbn [run]. unfold bind. now rewrite T.
Qed.

(** X19.  In a terminal of a fixed height of seven lines or more, with one
    rule list, not empty, returned by every listing, the arrow keys keep
    the selection on the screen: starting from
    [selected_index = scroll_offset = 0], after each key
    [scroll_offset <= selected_index < scroll_offset + (height - 6)]. *)
Theorem selection_stays_visible : forall rules h inputs s n,
  rules <> [] ->
  7 <= h ->
  command_mode (tui s) = false ->
  selected_index (tui s) = 0 ->
  scroll_offset (tui s) = 0 ->
  Forall (fun i => is_arrow (key i) = true /\ lists (listing i) rules /\ height i = h)
         inputs ->
  exists s',
    run (firstn n inputs) s = (Ok Next, s')
    /\ scroll_offset (tui s') <= selected_index (tui s')
    /\ selected_index (tui s') < scroll_offset (tui s') + (h - 6)
    /\ selected_index (tui s') < Py.len rules.
Proof.
  intros rules h inputs s n N H C S0 S1 F.
  assert (S : selection_ok (Py.len rules) (tui s)).
  { unfold selection_ok. rewrite S0, S1.
    destruct rules; [congruence | unfold Py.len; simpl; lia]. }
  assert (V : selection_visible h (tui s)).
  { unfold selection_visible. rewrite S0, S1. lia. }
  destruct (arrow_run_visible rules h (firstn n inputs) s C H S V) as (s' & R & S' & V').
  - now apply Forall_prefix.
  - exists s'. split; [exact R|]. destruct V' as [V0 V1]. destruct S' as (_ & _ & S2).
    repeat split; assumption.
Qed.

Lemma selection_stays_visible_witness :
  exists s',
    run (firstn 4 arrows) start = (Ok Next, s')
    /\ scroll_offset (tui s') <= selected_index (tui s')
    /\ selected_index (tui s') < scroll_offset (tui s') + (7 - 6)
    /\ selected_index (tui s') < Py.len two_rules.
Proof.
  refine (selection_stays_visible two_rules 7 arrows start 4 _ _ eq_refl eq_refl eq_refl _).
  - discriminate.
  - lia.
  - repeat constructor; intros s; reflexivity.
Defined.

(** ** What [draw_screen] shows of the rules *)

Lemma display_text_fits : forall r width,
  5 <= width -> Py.len (display_text r width) <= width - 2.
Proof.
  intros r width W. unfold display_text. cbv zeta.
  destruct (Z.ltb_spec (width - 2) (Py.len (number r ++ Py.lit ": " ++ rule r)));
    [|assumption].
  set (text := number r ++ Py.lit ": " ++ rule r) in *.
  unfold slice, slice_index, Py.len in *. cbv zeta.
  assert (E0 : (0 <? 0) = false) by reflexivity.
  assert (E1 : (width - 5 <? 0) = false) by lia.
  rewrite E0, E1, length_app, length_firstn, length_skipn.
  change (List.length (Py.lit "...")) with 3%nat.
  lia.
Qed.

(** The rows of the loop: the rule at place [j] of the slice is drawn, on
    line [idx + j + 3], as long as that line is above the last three. *)
Lemma draw_rows_spec : forall t width height visible idx row,
  In row (draw_rows t width height idx visible) <->
  exists j r,
    nth_error visible j = Some r
    /\ idx + Z.of_nat j < height - 6
    /\ row = mkRow (idx + Z.of_nat j + 3) (display_text r width)
                   (idx + Z.of_nat j + scroll_offset t =? selected_index t).
Proof.
  intros t width height. induction visible as [|r0 rest IH]; intros idx row.
  - simpl. split; [tauto|]. intros (j & r & N & _). destruct j; discriminate.
  - cbn [draw_rows]. cbv zeta.
    destruct (Z.leb_spec (height - 3) (idx + 3)).
    + split; [intros []|]. intros (j & r & _ & B & _). lia.
    + cbn [In]. rewrite IH. split.
      * intros [<-|(j & r & N & B & ->)].
        -- exists 0%nat, r0. cbn. rewrite Z.add_0_r. repeat split. lia.
        -- exists (S j), r. cbn [nth_error]. split; [exact N|]. split; [lia|].
           f_equal; [lia|]. f_equal. lia.
      * intros (j & r & N & B & ->). destruct j as [|j].
        -- left. cbn in N. injection N as <-. cbn. now rewrite Z.add_0_r.
        -- right. exists j, r. cbn in N. split; [exact N|]. split; [lia|].
           f_equal; [lia|]. f_equal. lia.
Qed.

(** The rules of the slice, for an offset within the list. *)
Lemma nth_error_slice : forall (A : Type) (l : list A) (start stop : Z) (j : nat),
  0 <= start <= Py.len l -> 0 <= stop ->
  nth_error (slice l start stop) j =
  if start + Z.of_nat j <? Z.min stop (Py.len l)
  then nth_error l (Z.to_nat start + j)
  else None.
Proof.
  intros A l start stop j [S0 S1] T. unfold slice, slice_index. cbv zeta.
  assert (E0 : (start <? 0) = false) by lia.
  assert (E1 : (stop <? 0) = false) by lia.
  rewrite E0, E1, nth_error_firstn, nth_error_skipn.
  replace (Z.min start (Py.len l)) with start by lia.
  destruct (Z.ltb_spec (start + Z.of_nat j) (Z.min stop (Py.len l)));
    destruct (Nat.ltb_spec j (Z.to_nat (Z.min stop (Py.len l) - start)));
    try reflexivity; lia.
Qed.

(** X20.  On a terminal of five columns or more, every rule line that
    [draw_screen] prints is at most [width - 2] characters long, and it
    goes to a line from 3 to [height - 4]: the rules never reach the two
    lines at the top nor the three at the bottom. *)
Theorem rule_rows_fit_the_screen : forall t width height row,
  5 <= width ->
  In row (draw_rules t width height) ->
  3 <= row_y row < height - 3 /\ Py.len (row_text row) <= width - 2.
Proof.
  intros t width height row W I. unfold draw_rules in I. cbv zeta in I.
  apply draw_rows_spec in I. destruct I as (j & r & _ & B & ->). cbn.
  split; [lia | now apply display_text_fits].
Qed.

Lemma rule_rows_fit_the_screen_witness :
  let row := mkRow 4 (Py.lit "65535: deny ip ...") true in
  3 <= row_y row < 24 - 3 /\ Py.len (row_text row) <= 20 - 2.
Proof.
  refine (rule_rows_fit_the_screen second_selected 20 24 _ _ _).
  - lia.
  - right. left. reflexivity.
Defined.

(** X21.  When the selection is within the rule list and on the screen,
    [draw_screen] prints the selected rule in reverse video, on line
    [selected_index - scroll_offset + 3], and prints no other line in
    reverse video. *)
Theorem selected_rule_is_highlighted : forall t width height,
  selection_ok (Py.len (current_rules t)) t ->
  selection_visible height t ->
  exists r,
    nth_error (current_rules t) (Z.to_nat (selected_index t)) = Some r
    /\ In (mkRow (selected_index t - scroll_offset t + 3) (display_text r width) true)
          (draw_rules t width height)
    /\ forall row,
         In row (draw_rules t width height) -> row_reverse row = true ->
         row = mkRow (selected_index t - scroll_offset t + 3) (display_text r width) true.
Proof.
  intros t width height (S0 & S1 & S2) (_ & V).
  destruct (nth_error (current_rules t) (Z.to_nat (selected_index t))) as [r|] eqn:N.
  2:{ apply nth_error_None in N. unfold Py.len in S2. lia. }
  exists r. split; [reflexivity|].
  assert (Sl : forall j,
             nth_error (slice (current_rules t) (scroll_offset t)
                          (scroll_offset t + (height - 6))) j =
             if scroll_offset t + Z.of_nat j
                <? Z.min (scroll_offset t + (height - 6)) (Py.len (current_rules t))
             then nth_error (current_rules t) (Z.to_nat (scroll_offset t) + j)
             else None).
  { intros j. apply nth_error_slice; lia. }
  unfold draw_rules. cbv zeta. split.
  - apply draw_rows_spec.
    exists (Z.to_nat (selected_index t - scroll_offset t)), r.
    rewrite Sl.
    replace (Z.to_nat (scroll_offset t) + Z.to_nat (selected_index t - scroll_offset t))%nat
      with (Z.to_nat (selected_index t)) by lia.
    assert (E : (scroll_offset t + Z.of_nat (Z.to_nat (selected_index t - scroll_offset t))
                 <? Z.min (scroll_offset t + (height - 6)) (Py.len (current_rules t)))
                = true) by (apply Z.ltb_lt; lia).
    rewrite E. split; [exact N|]. split; [lia|].
    f_equal; [lia|]. symmetry. apply Z.eqb_eq. lia.
  - intros row I R. apply draw_rows_spec in I.
    destruct I as (j & r' & N' & B & ->). cbn in R. apply Z.eqb_eq in R.
    rewrite Sl in N'.
    destruct (_ <? _) in N'; [|discriminate].
    replace (Z.to_nat (scroll_offset t) + j)%nat
      with (Z.to_nat (selected_index t)) in N' by lia.
    assert (r' = r) by congruence. subst r'.
    f_equal; [lia|]. apply Z.eqb_eq. lia.
Qed.

Lemma selected_rule_is_highlighted_witness :
  exists r,
    nth_error two_rules 1 = Some r
    /\ In (mkRow (1 - 0 + 3) (display_text r 20) true) (draw_rules second_selected 20 24)
    /\ forall row,
         In row (draw_rules second_selected 20 24) -> row_reverse row = true ->
         row = mkRow (1 - 0 + 3) (display_text r 20) true.
Proof.
  refine (selected_rule_is_highlighted second_selected 20 24 _ _).
  - unfold selection_ok. vm_compute. repeat split; discriminate.
  - unfold selection_visible. vm_compute. split; [discriminate | reflexivity].
Defined.

(** ** Listings that are read, listings that end the session *)

Lemma decode_ascii : forall bs,
  Forall is_ascii bs -> Py.decode bs = Some (List.map Byte.to_N bs).
Proof.
  induction bs as [|b bs IH]; intros F; [reflexivity|].
  inversion F as [|? ? A F']; subst. unfold is_ascii in A.
  cbn [Py.decode List.map]. apply N.ltb_lt in A. rewrite A, (IH F'). reflexivity.
Qed.

(** X22.  A listing in plain ASCII is always read: whatever its bytes
    below 128, [get_ipfw_rules] raises nothing, and on exit code zero the
    rules are those of the lines of the output, each character being the
    value of its byte. *)
Theorem ascii_listing_is_read : forall rc out s,
  Forall is_ascii out ->
  fst (get_ipfw_rules (Exited rc out) s) =
  Ok (if rc =? 0 then flat_map rules_of_line (lines (List.map Byte.to_N out)) else []).
Proof.
  intros rc out s F. rewrite get_ipfw_rules_eq. cbn [fst].
  destruct (rc =? 0); [|reflexivity]. now rewrite (decode_ascii out F).
Qed.

Lemma ascii_listing_is_read_witness :
  fst (get_ipfw_rules (Exited 0 two_rules_output) start) = Ok two_rules.
Proof.
  refine (ascii_listing_is_read 0 two_rules_output start _).
  unfold two_rules_output, is_ascii. repeat constructor.
Defined.

(** X23.  Nothing in the loop catches what [get_ipfw_rules] raises: a
    listing that cannot be started, or whose output is not UTF-8, ends
    the session at that turn, in Browsing as in CommandEntry, with the
    object as it was and the keys that follow unread. *)
Theorem failed_listing_ends_the_session : forall i rest s e,
  fst (get_ipfw_rules (listing i) s) = Raise e ->
  run (i :: rest) s = (Raise e, mkSys (tui s) (calls s ++ [ipfw_list])).
Proof.
  intros i rest s e H. cbn [run]. unfold bind at 1, iteration, bind at 1.
  rewrite get_ipfw_rules_eq in *. cbn [fst] in H. now rewrite H.
Qed.

Lemma failed_listing_ends_the_session_witness :
  run [mkInput (Exited 0 not_utf8) key_up 24 ok;
       mkInput (Exited 0 two_rules_output) key_up 24 ok] entered =
  (Raise UnicodeDecodeError, mkSys (tui entered) (calls entered ++ [ipfw_list])).
Proof.
  exact (failed_listing_ends_the_session
           (mkInput (Exited 0 not_utf8) key_up 24 ok) _ entered UnicodeDecodeError eq_refl).
Defined.

Lemma split_blank : forall s k, all_space s = true -> Py.split k s = [].
Proof.
  intros s k B. unfold Py.split. apply split_scan_nil_iff. now apply lstrip_nil_iff.
Qed.

(** X24.  Enter on a buffer that is empty or blank still runs a command:
    [ipfw] without any argument.  Nothing is added to the history,
    whatever the exit code, and the loop is back in Browsing with the
    status of that command. *)
Theorem enter_on_blank_runs_bare_ipfw : forall i s rules rc out,
  command_mode (tui s) = true ->
  lists (listing i) rules ->
  code_is (key i) KEY_ENTER = true ->
  command i = Exited rc out ->
  all_space (command_string (tui s)) = true ->
  exists s',
    iteration i s = (Ok Next, s')
    /\ calls s' = calls s ++ [ipfw_list; [Py.lit "ipfw"]]
    /\ command_history (tui s') = command_history (tui s)
    /\ command_mode (tui s') = false
    /\ status_message (tui s') =
       (if rc =? 0 then Py.lit "Command executed successfully"
        else Py.lit "Error executing command").
Proof.
  intros i s rules rc out C L K O B.
  rewrite (enter_turn i s rules rc out C L K O).
  eexists. split; [reflexivity|]. cbn [tui calls]. rewrite (split_blank _ _ B).
  split; [reflexivity|]. unfold after_command. rewrite truthy_strip, B, andb_false_r.
  cbn. repeat split; reflexivity.
Qed.

Lemma enter_on_blank_runs_bare_ipfw_witness :
  exists s',
    iteration (mkInput (Exited 0 two_rules_output) key_enter 24 failed) entered
    = (Ok Next, s')
    /\ calls s' = calls entered ++ [ipfw_list; [Py.lit "ipfw"]]
    /\ command_history (tui s') = command_history (tui entered)
    /\ command_mode (tui s') = false
    /\ status_message (tui s') = Py.lit "Error executing command".
Proof.
  refine (enter_on_blank_runs_bare_ipfw
            (mkInput (Exited 0 two_rules_output) key_enter 24 failed) entered two_rules
            1 [] eq_refl _ eq_refl eq_refl eq_refl).
  intros s. reflexivity.
Defined.
